(** * sage-copilot: a shallow embedding of the ingestion and serving glue

    The repository is a retrieval-augmented generation application written
    in Python.  Its own code is orchestration: [DocumentEmbedder]
    (src/embeddings.py), [get_vector_db] (src/get_vector_db.py), the REST
    API (backend/app.py), the NextCloud webhook (webhooks.py) and the chat
    page (app.py).  Everything else (document partitioning, text splitting,
    the Chroma store, the language-model query) is an external library.

    The embedding keeps that split.  Python functions of the repository are
    translated into Rocq functions in a small state-and-exception monad;
    the external libraries are variables of a section, so every theorem
    holds for every behaviour those libraries may have.  Calls into the
    libraries are recorded in a trace, which lets the theorems speak about
    which calls happen and in which order. *)

From stdpp Require Import gmap strings list fin_maps pretty.
From Stdlib Require Import ZArith Floats Ascii String.

Local Open Scope string_scope.
Local Open Scope list_scope.
Local Open Scope Z_scope.

(** ** Python strings

    A [str] is modelled as a Rocq [string] whose characters are the code
    points below 256. *)

Module PyStr.

Definition code (c : ascii) : N := N_of_ascii c.

(** [str.isspace] on one character, for the code points below 256. *)
Definition is_space (c : ascii) : bool :=
  let n := code c in
  ((9 <=? n) && (n <=? 13) || (28 <=? n) && (n <=? 32)
   || (n =? 133) || (n =? 160))%N.

(** [str.lower] on one character: A-Z, and the Latin-1 capitals. *)
Definition lower_char (c : ascii) : ascii :=
  let n := code c in
  if ((65 <=? n) && (n <=? 90)
      || (192 <=? n) && (n <=? 222) && negb (n =? 215))%N
  then ascii_of_N (n + 32) else c.

Fixpoint lower (s : string) : string :=
  match s with
  | EmptyString => EmptyString
  | String c r => String (lower_char c) (lower r)
  end.

Fixpoint lstrip (s : string) : string :=
  match s with
  | EmptyString => EmptyString
  | String c r => if is_space c then lstrip r else s
  end.

(** [rstrip] keeps a character when it is not a space or when something
    is kept after it. *)
Fixpoint rstrip (s : string) : string :=
  match s with
  | EmptyString => EmptyString
  | String c r =>
      match rstrip r with
      | EmptyString => if is_space c then EmptyString else String c EmptyString
      | r' => String c r'
      end
  end.

(** [s.strip()] *)
Definition strip (s : string) : string := rstrip (lstrip s).

Fixpoint all_space (s : string) : bool :=
  match s with
  | EmptyString => true
  | String c r => is_space c && all_space r
  end.

(** Truth value of a [str]: non-empty. *)
Definition truthy (s : string) : bool :=
  match s with EmptyString => false | _ => true end.

(** [s.startswith(p)] *)
Fixpoint startswith (p s : string) : bool :=
  match p, s with
  | EmptyString, _ => true
  | String a p', String b s' => if Ascii.eqb a b then startswith p' s' else false
  | String _ _, EmptyString => false
  end.

(** [s.endswith(p)] for a one-character [p] *)
Fixpoint endswith_char (c : ascii) (s : string) : bool :=
  match s with
  | EmptyString => false
  | String a EmptyString => Ascii.eqb a c
  | String _ r => endswith_char c r
  end.

(** [s[n:]] *)
Fixpoint drop (n : nat) (s : string) : string :=
  match n, s with
  | O, _ => s
  | S n', String _ r => drop n' r
  | S _, EmptyString => EmptyString
  end.

(** [s.replace(old, new)] for a non-empty [old]: non-overlapping
    occurrences, left to right.  [fuel] bounds the scan by the length of
    [s].  (The repository only ever calls it with a pattern that starts
    with a slash.) *)
Fixpoint replace_go (fuel : nat) (old new s : string) : string :=
  match fuel with
  | O => s
  | S fuel' =>
      match s with
      | EmptyString => EmptyString
      | String c r =>
          if startswith old s
          then new +:+ replace_go fuel' old new (drop (String.length old) s)
          else String c (replace_go fuel' old new r)
      end
  end.

Definition replace (old new s : string) : string :=
  replace_go (String.length s) old new s.

(** [old in s] *)
Fixpoint contains (old s : string) : bool :=
  startswith old s ||
  match s with
  | EmptyString => false
  | String _ r => contains old r
  end.

(** [sep.join(parts)] *)
Fixpoint join (sep : string) (parts : list string) : string :=
  match parts with
  | [] => ""
  | [p] => p
  | p :: rest => p +:+ sep +:+ join sep rest
  end.

(** [s.rfind(".")]: the index of the last dot. *)
Fixpoint rfind_dot (s : string) : option nat :=
  match s with
  | EmptyString => None
  | String c r =>
      match rfind_dot r with
      | Some i => Some (S i)
      | None => if Ascii.eqb c "." then Some O else None
      end
  end.

(** [s.split("/")] *)
Fixpoint split_slash (s : string) : list string :=
  match s with
  | EmptyString => [""]
  | String c r =>
      if Ascii.eqb c "/" then "" :: split_slash r
      else match split_slash r with
           | [] => [String c ""]
           | p :: ps => String c p :: ps
           end
  end.

End PyStr.

(** ** Exceptions and results *)

(** The exceptions the repository raises or catches.  [LibraryError] stands
    for whatever an external library raises; [AttributeError] is what
    Python raises for [x.get] or [x.replace] on a value without that
    method.  All of them are subclasses of [Exception]. *)
Inductive exn : Type :=
| PyException (msg : string)
| AttributeError (msg : string)
| LibraryError (msg : string)
| HTTPException (status_code : Z) (detail : string).

(** [str(e)].  Starlette's [HTTPException.__str__] gives
    ["{status_code}: {detail}"]. *)
Definition str_exn (e : exn) : string :=
  match e with
  | PyException m | AttributeError m | LibraryError m => m
  | HTTPException c d => pretty c +:+ ": " +:+ d
  end.

Definition is_HTTPException (e : exn) : bool :=
  match e with HTTPException _ _ => true | _ => false end.

Inductive result (A : Type) : Type :=
| Return (a : A)
| Raise (e : exn).
Arguments Return {A} a.
Arguments Raise {A} e.

(** ** Paths and the file system

    [pathlib.Path] as the code uses it: construction from a string,
    [str], [name], [suffix], [exists], [is_dir], [is_file], [stat] and
    [rglob('*')].  The file system is a tree that a request only reads;
    relative paths are resolved from its root and symbolic links are not
    modelled. *)

Record Stat : Type := { st_size : Z; st_mtime : float }.

#[local] Set Warnings "-register-all".
Inductive node : Type :=
| File (st : Stat)
| Dir (st : Stat) (entries : list (string * node))
| Special (st : Stat).

Definition node_stat (n : node) : Stat :=
  match n with File st | Dir st _ | Special st => st end.

Module PathLib.

Record Path : Type := { absolute : bool; parts : list string }.

(** [Path(s)]: empty and ["."] components are dropped. *)
Definition of_str (s : string) : Path :=
  {| absolute := PyStr.startswith "/" s;
     parts := filter (λ p, p ≠ "" ∧ p ≠ ".") (PyStr.split_slash s) |}.

(** [str(p)] *)
Definition str (p : Path) : string :=
  match parts p with
  | [] => if absolute p then "/" else "."
  | ps => (if absolute p then "/" else "") +:+ PyStr.join "/" ps
  end.

(** [p.name] *)
Definition name (p : Path) : string := List.last (parts p) "".

(** [p.suffix]: from the last dot of the name, unless that dot is the
    first or the last character. *)
Definition suffix (p : Path) : string :=
  let n := name p in
  match PyStr.rfind_dot n with
  | Some i =>
      if ((0 <? i) && (i <? String.length n - 1))%nat then PyStr.drop i n else ""
  | None => ""
  end.

(** [p / child] *)
Definition joinpath (p : Path) (child : string) : Path :=
  {| absolute := absolute p; parts := parts p ++ [child] |}.

Fixpoint lookup_entry (nm : string) (es : list (string * node)) : option node :=
  match es with
  | [] => None
  | (k, n) :: r => if String.eqb k nm then Some n else lookup_entry nm r
  end.

(** Path resolution; [up] holds the directories above [cur]. *)
Fixpoint resolve_from (up : list node) (cur : node) (ps : list string)
  : option node :=
  match ps with
  | [] => Some cur
  | p :: r =>
      match cur with
      | Dir _ es =>
          if String.eqb p ".." then
            match up with
            | [] => resolve_from [] cur r
            | parent :: up' => resolve_from up' parent r
            end
          else
            match lookup_entry p es with
            | Some child => resolve_from (cur :: up) child r
            | None => None
            end
      | _ => None
      end
  end.

Definition resolve (fs : node) (p : Path) : option node :=
  resolve_from [] fs (parts p).

(** [p.exists()], [p.is_dir()], [p.is_file()] *)
Definition exists_ (fs : node) (p : Path) : bool :=
  match resolve fs p with Some _ => true | None => false end.

Definition is_dir (fs : node) (p : Path) : bool :=
  match resolve fs p with Some (Dir _ _) => true | _ => false end.

Definition is_file (fs : node) (p : Path) : bool :=
  match resolve fs p with Some (File _) => true | _ => false end.

(** [p.stat()] raises when the path does not resolve. *)
Definition stat (fs : node) (p : Path) : result Stat :=
  match resolve fs p with
  | Some n => Return (node_stat n)
  | None => Raise (LibraryError "FileNotFoundError")
  end.

(** [p.rglob('*')] below a node: every entry of the directory, then the
    same for each of its sub-directories in turn. *)
Fixpoint rglob_node (p : Path) (n : node) : list Path :=
  match n with
  | Dir _ es =>
      map (λ e, joinpath p e.1) es ++
      (fix below (es : list (string * node)) : list Path :=
         match es with
         | [] => []
         | (nm, child) :: r => rglob_node (joinpath p nm) child ++ below r
         end) es
  | _ => []
  end.

Definition rglob (fs : node) (p : Path) : list Path :=
  match resolve fs p with
  | Some n => rglob_node p n
  | None => []
  end.

End PathLib.
Import PathLib.

(** ** Configuration (src/config.py)

    The dataclass reads its defaults from the environment once; a
    [Config] value is the result. *)

Record Config : Type := {
  NEXTCLOUD_PATH : string;
  OLLAMA_MODEL : string;
  EMBEDDING_MODEL : string;
  DEFAULT_COLLECTION : string;
  CHROMA_PATH : string
}.

(** The defaults of src/config.py with an empty environment. *)
Definition default_config : Config :=
  {| NEXTCLOUD_PATH := "/home/deck/Documents/Books";
     OLLAMA_MODEL := "qwen3:0.6b";
     EMBEDDING_MODEL := "all-minilm";
     DEFAULT_COLLECTION := "documents";
     CHROMA_PATH := "./chroma_db" |}.

(** ** Documents, the splitter and the vector-store handle *)

Record Metadata : Type := {
  source : string;
  filename : string;
  file_type : string;
  file_size : Z;
  last_modified : float
}.

Record Document : Type := { page_content : string; metadata : Metadata }.

(** The arguments [RecursiveCharacterTextSplitter] is constructed with
    ([length_function] is always [len]). *)
Record TextSplitter : Type := {
  chunk_size : Z;
  chunk_overlap : Z;
  separators : list string
}.

Record OllamaEmbeddings : Type := { model : string }.

(** A [Chroma] object: the arguments it was constructed with and the
    identity of the Python object. *)
Record Chroma : Type := {
  handle_id : nat;
  collection_name : string;
  persist_directory : string;
  embedding_function : OllamaEmbeddings
}.

(** Calls into the external libraries, in the order they are made. *)
Inductive Event : Type :=
| EvPartition (filename : string)
| EvSplit (splitter : TextSplitter) (docs : list Document)
| EvOllamaEmbeddings (model : string)
| EvChroma (collection_name persist_directory : string)
           (embedding : OllamaEmbeddings)
| EvAddDocuments (db : Chroma) (chunks : list Document)
| EvPersist (db : Chroma)
| EvQuery (question : string).

Definition is_store_event (e : Event) : bool :=
  match e with
  | EvChroma _ _ _ | EvAddDocuments _ _ | EvPersist _ => true
  | _ => false
  end.


(** ** JSON values and chat messages

    A request body parsed by FastAPI, and the dictionaries the endpoints
    return.  A Python [dict] is a list of key-value pairs in insertion
    order. *)
#[local] Set Warnings "-register-all".
Inductive json : Type :=
| JNull
| JBool (b : bool)
| JInt (n : Z)
| JFloat (f : float)
| JStr (s : string)
| JList (items : list json)
| JObj (fields : list (string * json)).

(** One entry of [st.session_state.messages]. *)
Record Message : Type := {
  role : string;
  content : string;
  timestamp : string
}.

(** ** The environment of a request

    What the repository's code calls but does not define.  [partition] is
    [unstructured.partition.auto.partition] followed by [str] on each
    element; [split_documents] is [RecursiveCharacterTextSplitter.
    split_documents]; the [chroma_*] fields are [langchain_chroma.Chroma],
    acting on the state [Store] of the persistent collection;
    [llm_query] is [src.llm_query.query], which is not among the files
    under verification; [strftime_now] is [datetime.now().strftime] at a
    clock tick; [py_str] is Python's [str] on a JSON value that is not a
    string.  [app_config] is the module-level [Config()] and [fs] the
    file system during the request. *)
Class Env : Type := {
  Store : Type;
  app_config : Config;
  fs : node;
  partition : string → result (list string);
  split_documents : TextSplitter → list Document → result (list Document);
  chroma_init :
    string → string → OllamaEmbeddings → Store → Store * result unit;
  chroma_add_documents : Chroma → list Document → Store → Store * result unit;
  chroma_has_persist : bool;
  chroma_persist : Chroma → Store → Store * result unit;
  llm_query : string → Store → Store * result (option string);
  strftime_now : nat → string;
  py_str : json → string
}.

Section Model.
Context {E : Env}.

(** The mutable part: the vector store, the next fresh object identity,
    the trace of library calls, the clock, and the message history of the
    chat session. *)
Record World : Type := {
  vstore : Store;
  next_id : nat;
  trace : list Event;
  clock : nat;
  messages : list Message
}.

Definition log_event (e : Event) (w : World) : World :=
  {| vstore := vstore w; next_id := next_id w; trace := trace w ++ [e];
     clock := clock w; messages := messages w |}.

Definition add_events (evs : list Event) (w : World) : World :=
  {| vstore := vstore w; next_id := next_id w; trace := trace w ++ evs;
     clock := clock w; messages := messages w |}.

Definition set_vstore (s : Store) (w : World) : World :=
  {| vstore := s; next_id := next_id w; trace := trace w;
     clock := clock w; messages := messages w |}.

(** *** The monad: state passing with Python exceptions *)

Definition M (A : Type) : Type := World → result A * World.

Definition ret {A} (a : A) : M A := λ w, (Return a, w).

Definition raise {A} (e : exn) : M A := λ w, (Raise e, w).

Definition bind {A B} (m : M A) (k : A → M B) : M B :=
  λ w, match m w with
       | (Return a, w') => k a w'
       | (Raise e, w') => (Raise e, w')
       end.

(** [try: body  except Exception as e: handler e] *)
Definition try_except {A} (body : M A) (handler : exn → M A) : M A :=
  λ w, match body w with
       | (Raise e, w') => handler e w'
       | r => r
       end.

Definition lift {A} (r : result A) : M A := λ w, (r, w).

(** [for x in xs: s = body x s] *)
Fixpoint for_each {A S} (xs : list A) (s : S) (body : A → S → M S) : M S :=
  match xs with
  | [] => ret s
  | x :: r => bind (body x s) (λ s', for_each r s' body)
  end.

End Model.

Notation "'let*' x ':=' m 'in' k" := (bind m (λ x, k))
  (at level 10, x pattern, m at level 100, k at level 200).

Section Library.
Context {E : Env}.

(** *** Calls into the libraries, each recorded in the trace *)

Definition call_partition (filename : string) : M (list string) :=
  λ w, (partition filename, log_event (EvPartition filename) w).

Definition call_split_documents (sp : TextSplitter) (docs : list Document)
  : M (list Document) :=
  λ w, (split_documents sp docs, log_event (EvSplit sp docs) w).

(** [OllamaEmbeddings(model=m)] only stores its argument. *)
Definition new_OllamaEmbeddings (m : string) : M OllamaEmbeddings :=
  λ w, (Return {| model := m |}, log_event (EvOllamaEmbeddings m) w).

(** [Chroma(collection_name=.., persist_directory=.., embedding_function=..)]
    opens (or creates) the collection; when it returns, the result is a new
    object. *)
Definition new_Chroma (cn pd : string) (emb : OllamaEmbeddings) : M Chroma :=
  λ w,
    let w1 := log_event (EvChroma cn pd emb) w in
    match chroma_init cn pd emb (vstore w1) with
    | (s, Return _) =>
        (Return {| handle_id := next_id w1; collection_name := cn;
                   persist_directory := pd; embedding_function := emb |},
         {| vstore := s; next_id := S (next_id w1); trace := trace w1;
            clock := clock w1; messages := messages w1 |})
    | (s, Raise e) => (Raise e, set_vstore s w1)
    end.

Definition call_add_documents (db : Chroma) (chunks : list Document) : M unit :=
  λ w,
    let w1 := log_event (EvAddDocuments db chunks) w in
    let '(s, r) := chroma_add_documents db chunks (vstore w1) in
    (r, set_vstore s w1).

Definition call_persist (db : Chroma) : M unit :=
  λ w,
    let w1 := log_event (EvPersist db) w in
    let '(s, r) := chroma_persist db (vstore w1) in
    (r, set_vstore s w1).

Definition call_query (question : string) : M (option string) :=
  λ w,
    let w1 := log_event (EvQuery question) w in
    let '(s, r) := llm_query question (vstore w1) in
    (r, set_vstore s w1).

(** [datetime.now().strftime("%H:%M:%S")] *)
Definition now_strftime : M string :=
  λ w, (Return (strftime_now (clock w)),
        {| vstore := vstore w; next_id := next_id w; trace := trace w;
           clock := S (clock w); messages := messages w |}).

(** [st.session_state.messages.append(m)] *)
Definition messages_append (m : Message) : M unit :=
  λ w, (Return tt,
        {| vstore := vstore w; next_id := next_id w; trace := trace w;
           clock := clock w; messages := messages w ++ [m] |}).

End Library.

(** ** The vector database accessor (src/get_vector_db.py) *)

Section GetVectorDb.
Context {E : Env}.

Definition get_vector_db : M Chroma :=
  let* embedding := new_OllamaEmbeddings (EMBEDDING_MODEL app_config) in
  let* db := new_Chroma (DEFAULT_COLLECTION app_config)
                        (CHROMA_PATH app_config) embedding in
  ret db.

End GetVectorDb.

(** ** The document embedder (src/embeddings.py) *)

Definition newline : string := String (ascii_of_nat 10) "".

Record DocumentEmbedder : Type := {
  config : Config;
  text_splitter : TextSplitter;
  supported_extensions : gset string
}.

(** [DocumentEmbedder.__init__] *)
Definition DocumentEmbedder_init (config : Config) : DocumentEmbedder :=
  {| config := config;
     text_splitter :=
       {| chunk_size := 1000;
          chunk_overlap := 200;
          separators := [newline +:+ newline; newline; " "; ""] |};
     supported_extensions :=
       {[ ".pdf"; ".docx"; ".doc"; ".txt"; ".md"; ".html"; ".htm";
          ".rtf"; ".odt"; ".csv"; ".xlsx"; ".xls"; ".pptx"; ".ppt" ]} |}.

Definition is_supported_file (self : DocumentEmbedder) (file_path : Path) : bool :=
  bool_decide (PyStr.lower (suffix file_path) ∈ supported_extensions self).

(** The dictionary [get_file_stats] returns: either the single key
    ["error"], or the four counters. *)
Record Stats : Type := {
  total_files : Z;
  supported_files : Z;
  file_types : gmap string Z;
  total_size : Z
}.

Inductive FileStats : Type :=
| StatsError (msg : string)
| StatsOk (s : Stats).

(** [stats.get('supported_files', 0)] *)
Definition get_supported_files (s : FileStats) : Z :=
  match s with
  | StatsError _ => 0
  | StatsOk s => supported_files s
  end.

Section Embedder.
Context {E : Env}.

Definition load_document (self : DocumentEmbedder) (file_path : Path)
  : M (list Document) :=
  try_except
    (let* elements := call_partition (str file_path) in
     let text_content := PyStr.join (newline +:+ newline) elements in
     let* st1 := lift (stat fs file_path) in
     let* st2 := lift (stat fs file_path) in
     let document :=
       {| page_content := text_content;
          metadata :=
            {| source := str file_path;
               filename := name file_path;
               file_type := PyStr.lower (suffix file_path);
               file_size := st_size st1;
               last_modified := st_mtime st2 |} |} in
     ret [document])
    (λ _, ret []).

Definition chunk_documents (self : DocumentEmbedder) (documents : list Document)
  : M (list Document) :=
  try_except
    (let* chunks := call_split_documents (text_splitter self) documents in
     ret chunks)
    (λ _, ret []).

(** The body of the loop of [process_directory]; the loop state is
    [(all_documents, processed_files)]. *)
Definition process_file (self : DocumentEmbedder) (file_path : Path)
    (acc : list Document * Z) : M (list Document * Z) :=
  let '(all_documents, processed_files) := acc in
  if is_file fs file_path && is_supported_file self file_path then
    let* documents := load_document self file_path in
    match documents with
    | [] => ret (all_documents, processed_files)
    | _ => ret (all_documents ++ documents, processed_files + 1)
    end
  else ret (all_documents, processed_files).

Definition process_directory (self : DocumentEmbedder)
    (directory_path : option string) : M (list Document) :=
  let directory_path :=
    match directory_path with
    | None => NEXTCLOUD_PATH (config self)
    | Some d => d
    end in
  let dir_path := of_str directory_path in
  if negb (exists_ fs dir_path) then ret []
  else if negb (is_dir fs dir_path) then ret []
  else
    let* (all_documents, processed_files) :=
      for_each (rglob fs dir_path) ([], 0) (process_file self) in
    match all_documents with
    | [] => ret []
    | _ =>
        let* chunked_documents := chunk_documents self all_documents in
        ret chunked_documents
    end.

Definition embed_documents (self : DocumentEmbedder)
    (directory_path : option string) : M bool :=
  try_except
    (let* chunks := process_directory self directory_path in
     match chunks with
     | [] => ret false
     | _ =>
         let* db := get_vector_db in
         let* _ := call_add_documents db chunks in
         let* _ := (if chroma_has_persist then call_persist db else ret tt) in
         ret true
     end)
    (λ _, ret false).

(** The body of the loop of [get_file_stats]. *)
Definition stats_file (self : DocumentEmbedder) (file_path : Path)
    (stats : Stats) : result Stats :=
  if is_file fs file_path then
    match stat fs file_path with
    | Raise e => Raise e
    | Return st =>
        let total_files' := total_files stats + 1 in
        let total_size' := total_size stats + st_size st in
        if is_supported_file self file_path then
          let ext := PyStr.lower (suffix file_path) in
          Return
            {| total_files := total_files';
               supported_files := supported_files stats + 1;
               file_types :=
                 <[ext := default 0 (file_types stats !! ext) + 1]>
                   (file_types stats);
               total_size := total_size' |}
        else
          Return
            {| total_files := total_files';
               supported_files := supported_files stats;
               file_types := file_types stats;
               total_size := total_size' |}
    end
  else Return stats.

Fixpoint stats_loop (self : DocumentEmbedder) (paths : list Path)
    (stats : Stats) : result Stats :=
  match paths with
  | [] => Return stats
  | p :: r =>
      match stats_file self p stats with
      | Return stats' => stats_loop self r stats'
      | Raise e => Raise e
      end
  end.

Definition get_file_stats (self : DocumentEmbedder)
    (directory_path : option string) : result FileStats :=
  let directory_path :=
    match directory_path with
    | None => NEXTCLOUD_PATH (config self)
    | Some d => d
    end in
  let dir_path := of_str directory_path in
  if negb (exists_ fs dir_path) then
    Return (StatsError "Directory does not exist")
  else
    let stats :=
      {| total_files := 0; supported_files := 0;
         file_types := ∅; total_size := 0 |} in
    match stats_loop self (rglob fs dir_path) stats with
    | Return s => Return (StatsOk s)
    | Raise e => Raise e
    end.

End Embedder.

(** ** The REST API (backend/app.py) *)

Module QueryRequest.
Record t : Type := { query : string; collection : option string }.
End QueryRequest.

Module QueryResponse.
Record t : Type := { message : string; sources : option (list string) }.
End QueryResponse.

Module IngestRequest.
Record t : Type := {
  directory_path : option string;
  collection : option string
}.
End IngestRequest.

Module IngestResponse.
Record t : Type := {
  message : string;
  files_processed : Z;
  chunks_created : Z
}.
End IngestResponse.

Module StatusResponse.
Record t : Type := {
  status : string;
  ollama_model : string;
  embedding_model : string;
  collections_available : list string
}.
End StatusResponse.

Module CollectionsResponse.
Record t : Type := { collections : list (list (string * json)) }.
End CollectionsResponse.

(** Truth value of what the query function returns ([None] or a [str]). *)
Definition response_truthy (response : option string) : bool :=
  match response with
  | Some s => PyStr.truthy s
  | None => false
  end.

Section BackendApp.
Context {E : Env}.

(** The global [embedder], as [lifespan] sets it at start-up. *)
Definition embedder : DocumentEmbedder := DocumentEmbedder_init app_config.

Definition ingest_documents (request : IngestRequest.t)
  : M IngestResponse.t :=
  try_except
    (let* stats_before :=
       lift (get_file_stats embedder (IngestRequest.directory_path request)) in
     let* success :=
       embed_documents embedder (IngestRequest.directory_path request) in
     if negb success then
       raise (HTTPException 400 "Failed to ingest documents")
     else
       let* stats_after :=
         lift (get_file_stats embedder (IngestRequest.directory_path request)) in
       ret {| IngestResponse.message := "Documents ingested successfully";
              IngestResponse.files_processed := get_supported_files stats_after;
              IngestResponse.chunks_created := 0 |})
    (λ e, raise (HTTPException 500 ("Ingestion failed: " +:+ str_exn e))).

Definition query_documents (request : QueryRequest.t) : M QueryResponse.t :=
  try_except
    (if negb (PyStr.truthy (PyStr.strip (QueryRequest.query request))) then
       raise (HTTPException 400 "Query cannot be empty")
     else
       let* response := call_query (QueryRequest.query request) in
       if negb (response_truthy response) then
         raise (HTTPException 500 "Failed to generate response")
       else
         ret {| QueryResponse.message := default "" response;
                QueryResponse.sources := None |})
    (λ e,
       if is_HTTPException e then raise e
       else raise (HTTPException 500 ("Query failed: " +:+ str_exn e))).

Definition get_status : M StatusResponse.t :=
  try_except
    (ret {| StatusResponse.status := "healthy";
            StatusResponse.ollama_model := OLLAMA_MODEL app_config;
            StatusResponse.embedding_model := EMBEDDING_MODEL app_config;
            StatusResponse.collections_available :=
              [DEFAULT_COLLECTION app_config] |})
    (λ _, raise (HTTPException 500 "Failed to get system status")).

Definition list_collections : M CollectionsResponse.t :=
  try_except
    (let collections :=
       [ [ ("name", JStr (DEFAULT_COLLECTION app_config));
           ("document_count", JInt 0);
           ("last_updated", JNull);
           ("description", JStr "Default document collection") ] ] in
     ret {| CollectionsResponse.collections := collections |})
    (λ _, raise (HTTPException 500 "Failed to list collections")).

End BackendApp.

(** ** The NextCloud webhook (webhooks.py) *)

Fixpoint dict_lookup (key : string) (fields : list (string * json))
  : option json :=
  match fields with
  | [] => None
  | (k, v) :: r => if String.eqb k key then Some v else dict_lookup key r
  end.

(** [d.get(key, default)]: only a [dict] has [get]. *)
Definition dict_get (d : json) (key : string) (default : json) : result json :=
  match d with
  | JObj fields =>
      Return (match dict_lookup key fields with
              | Some v => v
              | None => default
              end)
  | _ => Raise (AttributeError "object has no attribute 'get'")
  end.

(** [os.path.join(a, b)] of [posixpath]. *)
Definition os_path_join (a b : string) : string :=
  if PyStr.startswith "/" b then b
  else if negb (PyStr.truthy a) || PyStr.endswith_char "/" a then a +:+ b
  else a +:+ "/" +:+ b.

Definition NodeCreatedEvent : string :=
  "OCP\Files\Events\Node\NodeCreatedEvent".

Section Webhooks.
Context {E : Env}.

(** [f"{v}"] *)
Definition format_value (v : json) : string :=
  match v with
  | JStr s => s
  | _ => py_str v
  end.

Definition convert_nextcloud_path_to_filesystem (nc_path user_id : json)
  : result string :=
  match nc_path with
  | JStr nc_path =>
      let relative_path :=
        PyStr.replace ("/" +:+ format_value user_id +:+ "/files/") "" nc_path in
      let base_path :=
        NEXTCLOUD_PATH app_config +:+ "/" +:+ format_value user_id +:+ "/files" in
      Return (os_path_join base_path relative_path)
  | _ => Raise (AttributeError "object has no attribute 'replace'")
  end.

Definition handle_file_created (file_path : string) : M (list (string * json)) :=
  try_except
    (let file_path_obj := of_str file_path in
     if negb (exists_ fs file_path_obj) then
       raise (PyException ("File does not exist: " +:+ file_path))
     else if negb (is_supported_file embedder file_path_obj) then
       ret [ ("status", JStr "failed");
             ("file", JStr ("File type not supported: " +:+ suffix file_path_obj)) ]
     else
       let* documents := load_document embedder file_path_obj in
       match documents with
       | [] => raise (PyException "Failed to load document")
       | _ =>
           let* chunks := chunk_documents embedder documents in
           let* db := get_vector_db in
           let* _ := call_add_documents db chunks in
           ret [ ("status", JStr "success"); ("file", JStr file_path) ]
       end)
    (λ e,
       ret [ ("status", JStr "failed");
             ("file", JStr ("Failed to process file: " +:+ str_exn e)) ]).

Definition nextcloud_webhook (payload : list (string * json))
  : M (list (string * json)) :=
  try_except
    (let* event := lift (dict_get (JObj payload) "event" (JObj [])) in
     let* event_type := lift (dict_get event "class" (JStr "")) in
     let* event' := lift (dict_get (JObj payload) "event" (JObj [])) in
     let* node := lift (dict_get event' "node" (JObj [])) in
     let* file_path := lift (dict_get node "path" (JStr "")) in
     let* user := lift (dict_get (JObj payload) "user" (JObj [])) in
     let* user_id := lift (dict_get user "uid" (JStr "")) in
     let* actual_file_path :=
       lift (convert_nextcloud_path_to_filesystem file_path user_id) in
     match event_type with
     | JStr s =>
         if String.eqb s NodeCreatedEvent then handle_file_created actual_file_path
         else ret [ ("status", JStr "ignored");
                    ("reason", JStr "Event type not handled") ]
     | _ => ret [ ("status", JStr "ignored");
                  ("reason", JStr "Event type not handled") ]
     end)
    (λ e, ret [ ("status", JStr "error"); ("message", JStr (str_exn e)) ]).

End Webhooks.

(** ** The chat page (app.py)

    One run of the Streamlit script from the chat input on.  The calls
    that only draw ([st.markdown], [st.caption], [st.error], the spinner)
    leave no mark in the state and are left out. *)

Definition not_found_msg : string :=
  "I couldn't find relevant information to answer your question. Please try rephrasing or check if your files are properly indexed.".

Section ChatPage.
Context {E : Env}.

(** [prompt] is what [st.chat_input] returned: [None] when nothing was
    submitted. *)
Definition chat_input_handler (prompt : option string) : M unit :=
  match prompt with
  | Some prompt =>
      if PyStr.truthy prompt then
        let* timestamp := now_strftime in
        let* _ := messages_append
                    {| role := "user"; content := prompt;
                       timestamp := timestamp |} in
        try_except
          (let* response := call_query prompt in
           if response_truthy response then
             let* response_timestamp := now_strftime in
             messages_append
               {| role := "assistant"; content := default "" response;
                  timestamp := response_timestamp |}
           else
             let error_msg := not_found_msg in
             let* ts := now_strftime in
             messages_append
               {| role := "assistant"; content := error_msg; timestamp := ts |})
          (λ e,
             let error_msg := "Sorry, I encountered an error: " +:+ str_exn e in
             let* ts := now_strftime in
             messages_append
               {| role := "assistant"; content := error_msg; timestamp := ts |})
      else ret tt
  | None => ret tt
  end.

End ChatPage.

(** ** The ingestion pipeline, step by step

    The same ingestion written as a composition of its steps, to compare
    with the loop of [process_directory]. *)

Section Pipeline.
Context {E : Env}.

(** The walked paths that are regular files with a supported extension. *)
Definition keep (self : DocumentEmbedder) (p : Path) : bool :=
  is_file fs p && is_supported_file self p.

Definition kept_files (self : DocumentEmbedder) (dir_path : Path) : list Path :=
  List.filter (keep self) (rglob fs dir_path).

(** The document built for a file from its partitioned elements. *)
Definition document_of (file_path : Path) (elements : list string) (st : Stat)
  : Document :=
  {| page_content := PyStr.join (newline +:+ newline) elements;
     metadata :=
       {| source := str file_path;
          filename := name file_path;
          file_type := PyStr.lower (suffix file_path);
          file_size := st_size st;
          last_modified := st_mtime st |} |}.

(** One document for a file that parses; none for a file on which the
    partitioning (or [stat]) raises. *)
Definition loaded (file_path : Path) : list Document :=
  match partition (str file_path), stat fs file_path with
  | Return elements, Return st => [document_of file_path elements st]
  | _, _ => []
  end.

Definition collected (self : DocumentEmbedder) (dir_path : Path) : list Document :=
  flat_map loaded (kept_files self dir_path).

Definition chunks_of (self : DocumentEmbedder) (dir_path : Path) : list Document :=
  match collected self dir_path with
  | [] => []
  | docs =>
      match split_documents (text_splitter self) docs with
      | Return chunks => chunks
      | Raise _ => []
      end
  end.

(** The library calls of [process_directory], in order: one partitioning
    per kept file, then one split of the collected documents. *)
Definition ingest_events (self : DocumentEmbedder) (d : Path) : list Event :=
  map (λ p, EvPartition (str p)) (kept_files self d) ++
  match collected self d with
  | [] => []
  | docs => [EvSplit (text_splitter self) docs]
  end.

(** The handle [get_vector_db] builds in world [w], and the library calls
    it makes. *)
Definition configured_handle (w : World) : Chroma :=
  {| handle_id := next_id w;
     collection_name := DEFAULT_COLLECTION app_config;
     persist_directory := CHROMA_PATH app_config;
     embedding_function := {| model := EMBEDDING_MODEL app_config |} |}.

Definition accessor_events : list Event :=
  [ EvOllamaEmbeddings (EMBEDDING_MODEL app_config);
    EvChroma (DEFAULT_COLLECTION app_config) (CHROMA_PATH app_config)
             {| model := EMBEDDING_MODEL app_config |} ].

(** Handing chunks to the store: open the collection, add, persist. *)
Definition store_chunks (chunks : list Document) : M unit :=
  let* db := get_vector_db in
  let* _ := call_add_documents db chunks in
  if chroma_has_persist then call_persist db else ret tt.

(** The directory a call works on. *)
Definition target_dir (self : DocumentEmbedder) (directory_path : option string)
  : Path :=
  of_str (match directory_path with
          | None => NEXTCLOUD_PATH (config self)
          | Some d => d
          end).

(** The regular files walked, and the size [stat] reports for a path. *)
Definition regular_files (dir_path : Path) : list Path :=
  List.filter (is_file fs) (rglob fs dir_path).

Definition size_of (p : Path) : Z :=
  match resolve fs p with
  | Some n => st_size (node_stat n)
  | None => 0
  end.

End Pipeline.

Definition is_Return {A} (r : result A) : bool :=
  match r with Return _ => true | Raise _ => false end.

(** The sum of the counts of a [file_types] dictionary. *)
Definition sum_values (m : gmap string Z) : Z :=
  map_fold (λ _ v acc, v + acc) 0 m.

Fixpoint sum_list (l : list Z) : Z :=
  match l with
  | [] => 0
  | x :: r => x + sum_list r
  end.

(** ** The claims about ingestion, as predicates on the code

    [one_document_per_kept_file]: the documents handed to the splitter
    are as many as the kept files. *)
Definition one_document_per_kept_file {E : Env} (self : DocumentEmbedder)
    (directory_path : option string) (w : World) : Prop :=
  ∀ sp docs,
    In (EvSplit sp docs) (trace (embed_documents self directory_path w).2) →
    List.length docs
    = List.length (kept_files self (target_dir self directory_path)).

(** ** The webhook, in the words of its claim *)

(** The NextCloud path of [rel] for user [uid], and the file-system path
    it stands for. *)
Definition nextcloud_path (uid rel : string) : string :=
  "/" +:+ uid +:+ "/files/" +:+ rel.

Definition filesystem_path {E : Env} (uid rel : string) : string :=
  NEXTCLOUD_PATH app_config +:+ "/" +:+ uid +:+ "/files" +:+ "/" +:+ rel.

(** The webhook added something to the vector store. *)
Definition webhook_ingests {E : Env} (payload : list (string * json))
    (w : World) : Prop :=
  ∃ db chunks,
    In (EvAddDocuments db chunks) (trace (nextcloud_webhook payload w).2).

Definition failed_response (msg : string) : list (string * json) :=
  [ ("status", JStr "failed"); ("file", JStr msg) ].

Definition success_response (file_path : string) : list (string * json) :=
  [ ("status", JStr "success"); ("file", JStr file_path) ].

Definition ignored_response : list (string * json) :=
  [ ("status", JStr "ignored"); ("reason", JStr "Event type not handled") ].

(** ** A concrete environment

    A small file system and simple stand-ins for the libraries, used to
    run the model on concrete inputs. *)

Module Demo.

Definition st (size : Z) : Stat := {| st_size := size; st_mtime := 1.5%float |}.

Definition tree : node :=
  Dir (st 4096)
    [ ("data",
       Dir (st 4096)
         [ ("notes.txt", File (st 12));
           ("Report.PDF", File (st 340));
           ("tool.exe", File (st 77));
           ("sub", Dir (st 4096) [ ("page.html", File (st 25)) ]);
           ("pipe", Special (st 0)) ]);
      ("broken", Dir (st 4096) [ ("scan.pdf", File (st 9)); ("ok.md", File (st 3)) ]);
      ("empty", Dir (st 4096) []);
      ("nc",
       Dir (st 4096)
         [ ("admin",
            Dir (st 4096)
              [ ("files",
                 Dir (st 4096)
                   [ ("report.txt", File (st 40));
                     ("setup.exe", File (st 50)) ]) ]) ]) ].

(** The partitioner fails on [scan.pdf] and returns two elements for any
    other file. *)
Definition demo_partition (filename : string) : result (list string) :=
  if String.eqb filename "/broken/scan.pdf"
  then Raise (LibraryError "cannot parse")
  else Return ["Title"; "Body of " +:+ filename].

(** The splitter returns every document as one chunk. *)
Definition demo_split_documents (sp : TextSplitter) (docs : list Document)
  : result (list Document) := Return docs.

(** The store is the list of stored chunks. *)
Definition demo_chroma_init (cn pd : string) (emb : OllamaEmbeddings)
    (s : list Document) : list Document * result unit := (s, Return tt).

Definition demo_chroma_add_documents (db : Chroma) (chunks : list Document)
    (s : list Document) : list Document * result unit := (s ++ chunks, Return tt).

Definition demo_chroma_persist (db : Chroma) (s : list Document)
  : list Document * result unit := (s, Return tt).

Definition demo_llm_query (question : string) (s : list Document)
  : list Document * result (option string) :=
  if String.eqb question "boom" then (s, Raise (LibraryError "connection refused"))
  else if String.eqb question "nothing" then (s, Return None)
  else (s, Return (Some ("Answer to: " +:+ question))).

Definition cfg : Config :=
  {| NEXTCLOUD_PATH := "/nc";
     OLLAMA_MODEL := "qwen3:0.6b";
     EMBEDDING_MODEL := "all-minilm";
     DEFAULT_COLLECTION := "documents";
     CHROMA_PATH := "./chroma_db" |}.

Definition env : Env :=
  {| Store := list Document;
     app_config := cfg;
     fs := tree;
     partition := demo_partition;
     split_documents := demo_split_documents;
     chroma_init := demo_chroma_init;
     chroma_add_documents := demo_chroma_add_documents;
     chroma_has_persist := false;
     chroma_persist := demo_chroma_persist;
     llm_query := demo_llm_query;
     strftime_now := λ n, "12:00:0" +:+ pretty n;
     py_str := λ _, "None" |}.

Definition empty_store : @Store env := @nil Document.

Definition w0 : @World env :=
  {| vstore := empty_store; next_id := 0; trace := []; clock := 0;
     messages := [] |}.

Definition self : DocumentEmbedder := @embedder env.

(** The webhook payload NextCloud sends for [path] and user [uid]. *)
Definition payload (class path uid : string) : list (string * json) :=
  [ ("event",
     JObj [ ("class", JStr class);
            ("node", JObj [ ("id", JInt 42); ("path", JStr path) ]) ]);
    ("user", JObj [ ("uid", JStr uid); ("displayName", JStr "Admin") ]) ].

Definition ask (q : string) : QueryRequest.t :=
  {| QueryRequest.query := q; QueryRequest.collection := None |}.

Definition ingest (d : string) : IngestRequest.t :=
  {| IngestRequest.directory_path := Some d;
     IngestRequest.collection := None |}.

End Demo.

(** ** More of the code: configuration from the environment

    [Config]'s defaults are [os.getenv(name, default)], read when the
    class is defined.  [os.getenv] returns the value of a variable that is
    set, empty or not, and the default otherwise. *)

Definition getenv (environ : gmap string string) (key default : string) : string :=
  match environ !! key with
  | Some v => v
  | None => default
  end.

(** [Config()] in a process whose environment is [environ]. *)
Definition Config_of_environ (environ : gmap string string) : Config :=
  {| NEXTCLOUD_PATH := getenv environ "NEXTCLOUD_PATH" "/home/deck/Documents/Books";
     OLLAMA_MODEL := getenv environ "OLLAMA_MODEL" "qwen3:0.6b";
     EMBEDDING_MODEL := getenv environ "EMBEDDING_MODEL" "all-minilm";
     DEFAULT_COLLECTION := getenv environ "COLLECTION_NAME" "documents";
     CHROMA_PATH := getenv environ "CHROMA_PATH" "./chroma_db" |}.

(** The environment that sets the five variables from a configuration. *)
Definition environ_of_Config (c : Config) : gmap string string :=
  <["NEXTCLOUD_PATH" := NEXTCLOUD_PATH c]>
    (<["OLLAMA_MODEL" := OLLAMA_MODEL c]>
       (<["EMBEDDING_MODEL" := EMBEDDING_MODEL c]>
          (<["COLLECTION_NAME" := DEFAULT_COLLECTION c]>
             (<["CHROMA_PATH" := CHROMA_PATH c]> ∅)))).

(** ** More of the code: the remaining endpoints of backend/app.py *)

(** [p.suffix] as a function of [p.name]. *)
Definition suffix_of_name (n : string) : string :=
  match PyStr.rfind_dot n with
  | Some i =>
      if ((0 <? i) && (i <? String.length n - 1))%nat then PyStr.drop i n else ""
  | None => ""
  end.


(** What [delete_collection] needs of the store besides [Env]:
    [hasattr(db, 'delete_collection')] and [db.delete_collection()]. *)
Class EnvDelete (E : Env) : Type := {
  chroma_has_delete_collection : bool;
  chroma_delete_collection : Chroma → Store → Store * result unit
}.

Section MoreEndpoints.
Context {E : Env}.


Context {D : EnvDelete E}.

(** [db.delete_collection()]; the call shows in the store, the trace
    has no event for it. *)
Definition call_delete_collection (db : Chroma) : M unit :=
  λ w, let '(s, r) := chroma_delete_collection db (vstore w) in
       (r, set_vstore s w).

(** [DELETE /collections/{collection_name}] *)
Definition delete_collection (collection_name : string)
  : M (list (string * json)) :=
  try_except
    (let* db := get_vector_db in
     if chroma_has_delete_collection then
       let* _ := call_delete_collection db in
       ret [ ("message",
              JStr ("Collection '" +:+ collection_name
                    +:+ "' deleted successfully")) ]
     else
       raise (HTTPException 501 "Collection deletion not implemented"))
    (λ e,
       raise (HTTPException 500
                ("Failed to delete collection: " +:+ str_exn e))).

End MoreEndpoints.

(** ** More of the code: a chat session

    Streamlit runs the script of app.py again for every interaction; the
    session state lives on.  A session is the sequence of values
    [st.chat_input] returned, one per run. *)

Section ChatSession.
Context {E : Env}.

Fixpoint chat_session (inputs : list (option string)) : M unit :=
  match inputs with
  | [] => ret tt
  | prompt :: rest =>
      let* _ := chat_input_handler prompt in
      chat_session rest
  end.

End ChatSession.

(** The prompts of a session that were submitted and are not empty. *)
Fixpoint submitted (inputs : list (option string)) : list string :=
  match inputs with
  | [] => []
  | Some (String c r) :: rest => String c r :: submitted rest
  | _ :: rest => submitted rest
  end.

(** A history made of pairs: a user message, then an assistant message. *)
Fixpoint alternating (history : list Message) : Prop :=
  match history with
  | [] => True
  | u :: a :: rest =>
      role u = "user" ∧ role a = "assistant" ∧ alternating rest
  | _ => False
  end.

Definition is_query_event (e : Event) : bool :=
  match e with EvQuery _ => true | _ => false end.


(** The class of the event of a webhook payload, as [nextcloud_webhook]
    reads it; [None] when reading it raises. *)
Definition event_class (payload : list (string * json)) : option json :=
  match dict_get (JObj payload) "event" (JObj []) with
  | Return event =>
      match dict_get event "class" (JStr "") with
      | Return c => Some c
      | Raise _ => None
      end
  | Raise _ => None
  end.

(** The walked paths that are kept and whose lowercased suffix is [k]. *)
Definition files_with_extension {E : Env} (self : DocumentEmbedder)
    (k : string) (paths : list Path) : list Path :=
  List.filter (λ p, keep self p && bool_decide (PyStr.lower (suffix p) = k)) paths.

(** An answer of the webhook with one of its four statuses. *)
Definition known_status (resp : list (string * json)) : Prop :=
  ∃ st, dict_lookup "status" resp = Some (JStr st)
        ∧ In st ["success"; "failed"; "ignored"; "error"].

(** The library calls of one successful [embed_documents] that opened
    the handle [db]. *)
Definition ingestion_run {E : Env} (self : DocumentEmbedder) (d : Path)
    (db : Chroma) : list Event :=
  map (λ p, EvPartition (str p)) (kept_files self d)
  ++ [EvSplit (text_splitter self) (collected self d)]
  ++ accessor_events
  ++ EvAddDocuments db (chunks_of self d)
     :: (if chroma_has_persist then [EvPersist db] else []).

(** ** A second concrete environment: the splitter raises, and the store
    can delete its collection *)

Module DemoFail.

Definition demo_split_documents (sp : TextSplitter) (docs : list Document)
  : result (list Document) := Raise (LibraryError "splitter failed").

Definition env : Env :=
  {| Store := list Document;
     app_config := Demo.cfg;
     fs := Demo.tree;
     partition := Demo.demo_partition;
     split_documents := demo_split_documents;
     chroma_init := Demo.demo_chroma_init;
     chroma_add_documents := Demo.demo_chroma_add_documents;
     chroma_has_persist := true;
     chroma_persist := Demo.demo_chroma_persist;
     llm_query :=
       λ q s, if String.eqb q "teapot"
              then (s, Raise (HTTPException 418 "I'm a teapot"))
              else Demo.demo_llm_query q s;
     strftime_now := λ n, "12:00:0" +:+ pretty n;
     py_str := λ _, "None" |}.

Definition empty_store : @Store env := @nil Document.

Definition w0 : @World env :=
  {| vstore := empty_store; next_id := 0; trace := []; clock := 0;
     messages := [] |}.

(** A store that drops everything on [delete_collection], and one
    without that method. *)
Definition can_delete : EnvDelete Demo.env :=
  {| chroma_has_delete_collection := true;
     chroma_delete_collection :=
       λ (_ : Chroma) (_ : @Store Demo.env),
         ((@nil Document : @Store Demo.env), Return tt) |}.

Definition cannot_delete : EnvDelete Demo.env :=
  {| chroma_has_delete_collection := false;
     chroma_delete_collection := λ (_ : Chroma) (s : @Store Demo.env), (s, Return tt) |}.

End DemoFail.

(** * Theorems *)

(** ** Python strings *)

Lemma rstrip_all_space (s : string) :
  PyStr.all_space s = true → PyStr.rstrip s = "".
Proof.
  induction s as [|c r IH]; simpl; [done|].
  intros [Hc Hr]%andb_prop. rewrite (IH Hr), Hc. done.
Qed.

Lemma rstrip_not_all_space (s : string) :
  PyStr.all_space s = false → PyStr.rstrip s ≠ "".
Proof.
  induction s as [|c r IH]; simpl; [done|].
  intros H. destruct (PyStr.rstrip r) eqn:Hr; [|done].
  destruct (PyStr.is_space c); [|done].
  simpl in H. apply IH in H. done.
Qed.

Lemma all_space_lstrip (s : string) :
  PyStr.all_space (PyStr.lstrip s) = PyStr.all_space s.
Proof.
  induction s as [|c r IH]; simpl; [done|].
  destruct (PyStr.is_space c) eqn:Hc; simpl; [done|].
  by rewrite Hc.
Qed.

(** [s.strip()] is empty exactly when [s] is empty or all whitespace. *)
Lemma strip_truthy (s : string) :
  PyStr.truthy (PyStr.strip s) = negb (PyStr.all_space s).
Proof.
  unfold PyStr.strip. destruct (PyStr.all_space s) eqn:H.
  - rewrite rstrip_all_space; [done|]. by rewrite all_space_lstrip.
  - rewrite <- all_space_lstrip in H. apply rstrip_not_all_space in H.
    by destruct (PyStr.rstrip (PyStr.lstrip s)).
Qed.

Lemma lower_char_idem (c : ascii) :
  PyStr.lower_char (PyStr.lower_char c) = PyStr.lower_char c.
Proof. by destruct c as [[] [] [] [] [] [] [] []]. Qed.

Lemma lower_idem (s : string) : PyStr.lower (PyStr.lower s) = PyStr.lower s.
Proof.
  induction s as [|c r IH]; simpl; [done|]. by rewrite lower_char_idem, IH.
Qed.

(** ** The file system *)

Section FileSystemFacts.
Context {E : Env}.

Lemma rglob_not_dir (p : Path) : is_dir fs p = false → rglob fs p = [].
Proof.
  unfold is_dir, rglob. destruct (resolve fs p) as [[]|]; done.
Qed.

Lemma is_file_stat (p : Path) :
  is_file fs p = true → ∃ st, stat fs p = Return st ∧ st_size st = size_of p.
Proof.
  unfold is_file, stat, size_of.
  destruct (resolve fs p) as [[]|]; try done. eauto.
Qed.

Lemma exists_stat (p : Path) :
  exists_ fs p = true → ∃ st, stat fs p = Return st.
Proof.
  unfold exists_, stat. destruct (resolve fs p); [eauto|done].
Qed.

End FileSystemFacts.

(** ** The trace *)

Section TraceFacts.
Context {E : Env}.

Lemma add_events_nil (w : World) : add_events [] w = w.
Proof. destruct w. unfold add_events; simpl. by rewrite app_nil_r. Qed.

Lemma add_events_app (a b : list Event) (w : World) :
  add_events b (add_events a w) = add_events (a ++ b) w.
Proof. unfold add_events; simpl. by rewrite app_assoc. Qed.

Lemma log_event_add (e : Event) (w : World) : log_event e w = add_events [e] w.
Proof. done. Qed.

Lemma store_events_app (a b : list Event) :
  List.filter is_store_event (a ++ b)
  = List.filter is_store_event a ++ List.filter is_store_event b.
Proof. apply List.filter_app. Qed.

(** [get_vector_db], by the answer of the [Chroma] constructor. *)
Lemma get_vector_db_spec (w : World) :
  get_vector_db w
  = match chroma_init (DEFAULT_COLLECTION app_config) (CHROMA_PATH app_config)
                      {| model := EMBEDDING_MODEL app_config |} (vstore w) with
    | (s, Return _) =>
        (Return (configured_handle w),
         {| vstore := s; next_id := S (next_id w);
            trace := trace w ++ accessor_events;
            clock := clock w; messages := messages w |})
    | (s, Raise e) => (Raise e, set_vstore s (add_events accessor_events w))
    end.
Proof.
  unfold get_vector_db, bind, new_OllamaEmbeddings, new_Chroma, ret,
    configured_handle, accessor_events, set_vstore, add_events, log_event.
  simpl. destruct (chroma_init _ _ _ _) as [s [[]|e]]; simpl;
    by rewrite <- app_assoc.
Qed.

End TraceFacts.

(** ** The embedder *)

Section EmbedderFacts.
Context {E : Env}.
Implicit Types (self : DocumentEmbedder) (w : World) (p : Path).

(** [load_document] never raises: it calls the partitioner once and
    returns the documents of [loaded]. *)
Lemma load_document_spec self p w :
  load_document self p w = (Return (loaded p), log_event (EvPartition (str p)) w).
Proof.
  unfold load_document, try_except, bind, call_partition, lift, loaded, ret.
  destruct (partition (str p)) as [els|e]; [|done].
  destruct (stat fs p) as [st|e]; done.
Qed.

(** [chunk_documents] never raises either. *)
Lemma chunk_documents_spec self docs w :
  chunk_documents self docs w
  = (Return (match split_documents (text_splitter self) docs with
             | Return chunks => chunks
             | Raise _ => []
             end),
     log_event (EvSplit (text_splitter self) docs) w).
Proof.
  unfold chunk_documents, try_except, bind, call_split_documents, ret.
  destruct (split_documents _ docs); done.
Qed.

Lemma process_file_spec self p (acc : list Document) (n : Z) w :
  process_file self p (acc, n) w
  = if keep self p
    then (Return (acc ++ loaded p,
                  match loaded p with [] => n | _ => n + 1 end),
          log_event (EvPartition (str p)) w)
    else (Return (acc, n), w).
Proof.
  unfold process_file, keep.
  destruct (is_file fs p && is_supported_file self p); [|done].
  unfold bind. rewrite load_document_spec.
  destruct (loaded p); [|done]. by rewrite app_nil_r.
Qed.

(** The loop of [process_directory] is a filter followed by a flat map. *)
Lemma process_loop_spec self (paths : list Path) (acc : list Document) (n : Z) w :
  ∃ n',
    for_each paths (acc, n) (process_file self) w
    = (Return (acc ++ flat_map loaded (List.filter (keep self) paths), n'),
       add_events (map (λ p, EvPartition (str p)) (List.filter (keep self) paths)) w).
Proof.
  revert acc n w. induction paths as [|p r IH]; intros acc n w.
  - exists n. simpl. unfold ret. by rewrite app_nil_r, add_events_nil.
  - cbn [for_each List.filter]. unfold bind at 1. rewrite process_file_spec.
    destruct (keep self p) eqn:Hk; [|apply IH].
    edestruct IH as [n' ->]. exists n'. simpl.
    by rewrite log_event_add, add_events_app, <- app_assoc.
Qed.

Lemma process_directory_spec self dp w :
  process_directory self dp w
  = (Return (chunks_of self (target_dir self dp)),
     add_events (ingest_events self (target_dir self dp)) w).
Proof.
  unfold process_directory. fold (target_dir self dp).
  set (d := target_dir self dp).
  assert (Hnd : is_dir fs d = false →
                (@ret E (list Document) [] w)
                = (Return (chunks_of self d), add_events (ingest_events self d) w)).
  { intros H. unfold ingest_events, chunks_of, collected, kept_files.
    rewrite (rglob_not_dir _ H). simpl. by rewrite add_events_nil. }
  destruct (exists_ fs d) eqn:Hex; simpl.
  - destruct (is_dir fs d) eqn:Hd; simpl; [|by apply Hnd].
    unfold bind at 1.
    destruct (process_loop_spec self (rglob fs d) [] 0 w) as [n' ->].
    simpl. unfold ingest_events, chunks_of, collected, kept_files.
    destruct (flat_map loaded (List.filter (keep self) (rglob fs d))) as [|doc docs].
    + unfold ret. by rewrite app_nil_r.
    + unfold bind. rewrite chunk_documents_spec. unfold ret.
      by rewrite log_event_add, add_events_app.
  - apply Hnd. unfold exists_, is_dir in *. by destruct (resolve fs d).
Qed.

(** [embed_documents] never raises; its answer is decided by the chunks
    and by the store. *)
Lemma embed_documents_spec self dp w :
  embed_documents self dp w
  = let w1 := add_events (ingest_events self (target_dir self dp)) w in
    match chunks_of self (target_dir self dp) with
    | [] => (Return false, w1)
    | chunks =>
        let '(r, w2) := store_chunks chunks w1 in (Return (is_Return r), w2)
    end.
Proof.
  unfold embed_documents, try_except. unfold bind at 1.
  rewrite process_directory_spec. simpl.
  destruct (chunks_of self (target_dir self dp)) as [|c cs]; [done|].
  unfold store_chunks, bind.
  destruct (get_vector_db _) as [[db|e] w2]; [|done].
  destruct (call_add_documents db (c :: cs) w2) as [[[]|e] w3]; [|done].
  destruct chroma_has_persist.
  - destruct (call_persist db w3) as [[[]|e] w4]; done.
  - done.
Qed.

(** The store calls of a successful [store_chunks], in order. *)
Lemma store_chunks_trace (chunks : list Document) w :
  is_Return (store_chunks chunks w).1 = true →
  trace (store_chunks chunks w).2
  = trace w ++ accessor_events
    ++ EvAddDocuments (configured_handle w) chunks
       :: (if chroma_has_persist then [EvPersist (configured_handle w)] else []).
Proof.
  destruct (store_chunks chunks w) as [r w'] eqn:Hs. cbn [fst snd].
  intros Hr. unfold store_chunks, bind in Hs. rewrite get_vector_db_spec in Hs.
  destruct (chroma_init _ _ _ _) as [s [[]|e]];
    [|injection Hs as <- <-; done].
  unfold call_add_documents in Hs. cbn in Hs.
  destruct (chroma_add_documents _ _ _) as [s2 [[]|e]];
    [|injection Hs as <- <-; done].
  destruct chroma_has_persist.
  - unfold call_persist in Hs. cbn in Hs.
    destruct (chroma_persist _ _) as [s3 [[]|e]]; injection Hs as <- <-;
      [|done].
    cbn. by rewrite <- !app_assoc.
  - injection Hs as <- <-. cbn. by rewrite <- !app_assoc.
Qed.

Lemma ingest_events_no_store self d :
  List.filter is_store_event (ingest_events self d) = [].
Proof.
  unfold ingest_events. rewrite store_events_app.
  assert (H : ∀ l : list Path,
             List.filter is_store_event (map (λ p, EvPartition (str p)) l) = []).
  { induction l; simpl; done. }
  rewrite H. by destruct (collected self d).
Qed.

End EmbedderFacts.

(** ** Ingestion (claims C1, C2 and C10) *)

Section IngestionTheorems.
Context {E : Env}.
Implicit Types (self : DocumentEmbedder) (w : World) (p : Path).

Lemma kept_files_iff self d p :
  In p (kept_files self d)
  ↔ In p (rglob fs d) ∧ is_file fs p = true ∧ is_supported_file self p = true.
Proof.
  unfold kept_files, keep. rewrite List.filter_In, andb_true_iff. tauto.
Qed.

Lemma loaded_kept self d p :
  In p (kept_files self d) →
  match partition (str p) with
  | Return elements =>
      ∃ st, stat fs p = Return st ∧ loaded p = [document_of p elements st]
  | Raise _ => loaded p = []
  end.
Proof.
  intros (_ & Hf & _)%kept_files_iff.
  destruct (is_file_stat p Hf) as (st & Hst & _).
  unfold loaded. rewrite Hst. destruct (partition (str p)); eauto.
Qed.

Lemma no_kept_files_no_chunks self d : kept_files self d = [] → chunks_of self d = [].
Proof. unfold chunks_of, collected. by intros ->. Qed.

Lemma not_dir_no_kept_files self d : is_dir fs d = false → kept_files self d = [].
Proof. intros H. unfold kept_files. by rewrite (rglob_not_dir _ H). Qed.

Lemma not_exists_not_dir d : exists_ fs d = false → is_dir fs d = false.
Proof. unfold exists_, is_dir. by destruct (resolve fs d). Qed.

(** C1 (amended): for every directory path, ingestion walks the directory
    recursively and keeps exactly the walked regular files whose lowercased
    extension is supported; it calls the partitioning library once on each
    kept file, in walk order; a kept file that parses gives one document
    with the metadata source path, file name, lowercased file type, size
    and modification time, and a kept file on which the partitioning raises
    gives none; the collected documents, if any, are split once into
    chunks; the chunks, if any, are handed to the vector store; and the
    result is true exactly when there is at least one chunk and the store
    accepted them, in which case the library calls were, in this order,
    the partitionings, the split, the opening of the store, the addition
    of the chunks and (where the store has it) the persist. *)
Theorem embed_documents_pipeline self dp w :
  let d := target_dir self dp in
  let w1 := add_events (ingest_events self d) w in
  (∀ p, In p (kept_files self d)
        ↔ In p (rglob fs d) ∧ is_file fs p = true
          ∧ bool_decide (PyStr.lower (suffix p) ∈ supported_extensions self) = true)
  ∧ (∀ p w0, In p (kept_files self d) →
          match partition (str p) with
          | Return elements =>
              ∃ st, stat fs p = Return st
                    ∧ loaded p = [document_of p elements st]
                    ∧ load_document self p w0
                      = (Return
                           [ {| page_content :=
                                  PyStr.join (newline +:+ newline) elements;
                                metadata :=
                                  {| source := str p;
                                     filename := name p;
                                     file_type := PyStr.lower (suffix p);
                                     file_size := st_size st;
                                     last_modified := st_mtime st |} |} ],
                         log_event (EvPartition (str p)) w0)
          | Raise _ =>
              loaded p = []
              ∧ load_document self p w0
                = (Return [], log_event (EvPartition (str p)) w0)
          end)
  ∧ collected self d = flat_map loaded (kept_files self d)
  ∧ process_directory self dp w = (Return (chunks_of self d), w1)
  ∧ embed_documents self dp w
    = match chunks_of self d with
      | [] => (Return false, w1)
      | chunks =>
          let '(r, w2) := store_chunks chunks w1 in (Return (is_Return r), w2)
      end
  ∧ ((embed_documents self dp w).1 = Return true
     ↔ chunks_of self d ≠ []
       ∧ is_Return (store_chunks (chunks_of self d) w1).1 = true)
  ∧ ((embed_documents self dp w).1 = Return true →
     trace (embed_documents self dp w).2
     = trace w
       ++ map (λ p, EvPartition (str p)) (kept_files self d)
       ++ [EvSplit (text_splitter self) (collected self d)]
       ++ [ EvOllamaEmbeddings (EMBEDDING_MODEL app_config);
            EvChroma (DEFAULT_COLLECTION app_config) (CHROMA_PATH app_config)
                     {| model := EMBEDDING_MODEL app_config |} ]
       ++ EvAddDocuments (configured_handle w) (chunks_of self d)
          :: (if chroma_has_persist
              then [EvPersist (configured_handle w)] else [])).
Proof.
  intros d w1. split; [apply kept_files_iff|].
  split.
  { intros p w0 Hp. rewrite load_document_spec.
    pose proof (loaded_kept self d p Hp) as Hl.
    destruct (partition (str p)) as [els|e].
    - destruct Hl as (st & Hst & Hl). exists st. by rewrite Hl.
    - by rewrite Hl. }
  split; [done|].
  split; [apply process_directory_spec|].
  split; [apply embed_documents_spec|].
  rewrite embed_documents_spec. fold d w1.
  destruct (chunks_of self d) as [|c cs] eqn:Hch; simpl.
  - split; [|done]. split; [done|]. by intros [? _].
  - pose proof (store_chunks_trace (c :: cs) w1) as Ht.
    destruct (store_chunks (c :: cs) w1) as [[[]|e] w2]; simpl in *.
    + split; [done|]. intros _. rewrite (Ht eq_refl).
      unfold ingest_events, chunks_of in *.
      destruct (collected self d) as [|doc docs]; [done|].
      by rewrite <- !app_assoc.
    + split; [|done]. split; [done|]. by intros [_ ?].
Qed.

(** C10: if the target directory does not exist, is not a directory, has
    no supported regular file, or yields no chunk, [embed_documents]
    returns false, and neither opens the vector store nor adds to it: the
    store and the object counter are as before and the trace gains no
    store call. *)
Theorem embed_documents_failure_leaves_store self dp w :
  let d := target_dir self dp in
  exists_ fs d = false ∨ is_dir fs d = false
  ∨ kept_files self d = [] ∨ chunks_of self d = [] →
  ∃ w', embed_documents self dp w = (Return false, w')
        ∧ vstore w' = vstore w
        ∧ next_id w' = next_id w
        ∧ List.filter is_store_event (trace w')
          = List.filter is_store_event (trace w).
Proof.
  intros d H.
  assert (Hc : chunks_of self d = []).
  { destruct H as [H|[H|[H|H]]]; [| | |done].
    - by apply no_kept_files_no_chunks, not_dir_no_kept_files, not_exists_not_dir.
    - by apply no_kept_files_no_chunks, not_dir_no_kept_files.
    - by apply no_kept_files_no_chunks. }
  rewrite embed_documents_spec. fold d. rewrite Hc. simpl.
  eexists. split; [done|]. simpl. repeat split.
  by rewrite store_events_app, ingest_events_no_store, app_nil_r.
Qed.

(** C2: whatever configuration a [DocumentEmbedder] is constructed with,
    its text splitter has chunk size 1000, chunk overlap 200 and the
    separators two newlines, one newline, one space and the empty string;
    two embedders built from different configurations have the same
    splitter, and every split the embedder asks for goes to that
    splitter. *)
Theorem text_splitter_parameters_fixed (c : Config) :
  text_splitter (DocumentEmbedder_init c)
  = {| chunk_size := 1000;
       chunk_overlap := 200;
       separators :=
         [ String (ascii_of_nat 10) (String (ascii_of_nat 10) "");
           String (ascii_of_nat 10) ""; " "; "" ] |}
  ∧ (∀ c', text_splitter (DocumentEmbedder_init c')
           = text_splitter (DocumentEmbedder_init c))
  ∧ (∀ docs w,
       trace (chunk_documents (DocumentEmbedder_init c) docs w).2
       = trace w
         ++ [EvSplit {| chunk_size := 1000; chunk_overlap := 200;
                        separators :=
                          [ String (ascii_of_nat 10)
                              (String (ascii_of_nat 10) "");
                            String (ascii_of_nat 10) ""; " "; "" ] |} docs]).
Proof.
  split; [done|]. split; [done|].
  intros docs w. by rewrite chunk_documents_spec.
Qed.

End IngestionTheorems.

(** ** File statistics (claim C8) *)

Lemma sum_values_insert_fresh (m : gmap string Z) (k : string) (v : Z) :
  m !! k = None → sum_values (<[k:=v]> m) = v + sum_values m.
Proof.
  intros H. unfold sum_values. rewrite map_fold_insert_L; [done| |done].
  intros; lia.
Qed.

(** Counting one more file of extension [k]. *)
Lemma sum_values_bump (m : gmap string Z) (k : string) :
  sum_values (<[k := default 0 (m !! k) + 1]> m) = sum_values m + 1.
Proof.
  destruct (m !! k) as [v|] eqn:H; simpl.
  - rewrite <- (insert_delete_id m k v H) at 2.
    rewrite <- insert_delete_eq.
    rewrite !sum_values_insert_fresh by apply lookup_delete_eq. lia.
  - rewrite sum_values_insert_fresh by done. lia.
Qed.

Section StatsTheorems.
Context {E : Env}.
Implicit Types (self : DocumentEmbedder) (p : Path).

Lemma stats_file_spec self p (stats : Stats) :
  stats_file self p stats =
  Return
    (if is_file fs p then
       if is_supported_file self p then
         {| total_files := total_files stats + 1;
            supported_files := supported_files stats + 1;
            file_types :=
              <[PyStr.lower (suffix p) :=
                  default 0 (file_types stats !! PyStr.lower (suffix p)) + 1]>
                (file_types stats);
            total_size := total_size stats + size_of p |}
       else
         {| total_files := total_files stats + 1;
            supported_files := supported_files stats;
            file_types := file_types stats;
            total_size := total_size stats + size_of p |}
     else stats).
Proof.
  unfold stats_file. destruct (is_file fs p) eqn:Hf; [|done].
  destruct (is_file_stat p Hf) as (st & -> & <-).
  by destruct (is_supported_file self p).
Qed.

Lemma kept_at_most_regular self (paths : list Path) :
  (List.length (List.filter (keep self) paths)
   ≤ List.length (List.filter (is_file fs) paths))%nat.
Proof.
  induction paths as [|p r IH]; simpl; [done|]. unfold keep at 1.
  destruct (is_file fs p); simpl; [|done].
  destruct (is_supported_file self p); simpl; lia.
Qed.

(** The loop of [get_file_stats], from any starting counters. *)
Lemma stats_loop_spec self (paths : list Path) (stats : Stats) :
  ∃ s,
    stats_loop self paths stats = Return s
    ∧ total_files s
      = total_files stats + Z.of_nat (List.length (List.filter (is_file fs) paths))
    ∧ supported_files s
      = supported_files stats + Z.of_nat (List.length (List.filter (keep self) paths))
    ∧ sum_values (file_types s)
      = sum_values (file_types stats)
        + Z.of_nat (List.length (List.filter (keep self) paths))
    ∧ total_size s
      = total_size stats + sum_list (map size_of (List.filter (is_file fs) paths))
    ∧ (∀ k, is_Some (file_types s !! k) →
            is_Some (file_types stats !! k)
            ∨ ∃ p, In p (List.filter (keep self) paths)
                   ∧ k = PyStr.lower (suffix p)).
Proof.
  revert stats. induction paths as [|p r IH]; intros stats.
  - exists stats. simpl. repeat split; try lia. auto.
  - cbn [stats_loop]. rewrite stats_file_spec. cbn [List.filter].
    assert (Hk : keep self p = is_file fs p && is_supported_file self p) by done.
    rewrite Hk. clear Hk.
    destruct (is_file fs p) eqn:Hf; cbn [andb]; [|apply IH].
    destruct (is_supported_file self p) eqn:Hs;
      edestruct IH as (s & -> & H1 & H2 & H3 & H4 & H5);
      exists s; cbn [total_files supported_files file_types total_size] in *;
      rewrite ?sum_values_bump in H3;
      cbn [List.length map sum_list]; (repeat split; try lia); [|done].
    intros k Hk. destruct (H5 k Hk) as [Hin|(q & Hq & ->)].
    + destruct (decide (k = PyStr.lower (suffix p))) as [->|Hne].
      * right. exists p. split; [by left|done].
      * left. by rewrite lookup_insert_ne in Hin.
    + right. exists q. split; [by right|done].
Qed.

(** C8: for every existing directory, [get_file_stats] returns counters
    with [supported_files] at most [total_files], [supported_files] equal
    to the sum of the counts in [file_types], every key of [file_types]
    the lowercased extension of a walked regular file and a member of the
    supported set, and [total_size] the sum of the sizes of the walked
    regular files. *)
Theorem get_file_stats_invariants self dp :
  let d := target_dir self dp in
  is_dir fs d = true →
  ∃ s, get_file_stats self dp = Return (StatsOk s)
       ∧ supported_files s ≤ total_files s
       ∧ supported_files s = sum_values (file_types s)
       ∧ (∀ k, k ∈ dom (file_types s) →
               k ∈ supported_extensions self
               ∧ PyStr.lower k = k
               ∧ ∃ p, In p (regular_files d) ∧ k = PyStr.lower (suffix p))
       ∧ total_files s = Z.of_nat (List.length (regular_files d))
       ∧ total_size s = sum_list (map size_of (regular_files d)).
Proof.
  intros d Hd. unfold get_file_stats. fold (target_dir self dp). fold d.
  assert (Hex : exists_ fs d = true).
  { unfold exists_, is_dir in *. by destruct (resolve fs d). }
  rewrite Hex. cbn [negb].
  edestruct (stats_loop_spec self (rglob fs d)) as (s & -> & H1 & H2 & H3 & H4 & H5).
  exists s. cbn [total_files supported_files file_types total_size] in *.
  pose proof (kept_at_most_regular self (rglob fs d)) as Hle.
  unfold sum_values in H3 at 2. rewrite map_fold_empty in H3.
  unfold regular_files. repeat split; try lia.
  - apply elem_of_dom in H. destruct (H5 k H) as [[? Hin]|(p & Hp & ->)].
    { by rewrite lookup_empty in Hin. }
    apply List.filter_In in Hp as [_ Hk]. unfold keep in Hk.
    apply andb_prop in Hk as [_ Hk]. unfold is_supported_file in Hk.
    by apply bool_decide_eq_true in Hk.
  - apply elem_of_dom in H. destruct (H5 k H) as [[? Hin]|(p & Hp & ->)].
    { by rewrite lookup_empty in Hin. }
    apply lower_idem.
  - apply elem_of_dom in H. destruct (H5 k H) as [[? Hin]|(p & Hp & ->)].
    { by rewrite lookup_empty in Hin. }
    exists p. split; [|done].
    apply List.filter_In in Hp as [Hin Hk]. unfold keep in Hk.
    apply andb_prop in Hk as [Hf _]. by apply List.filter_In.
Qed.

(** [get_file_stats] never raises. *)
Lemma get_file_stats_returns self dp : ∃ r, get_file_stats self dp = Return r.
Proof.
  unfold get_file_stats. destruct (negb _); [eauto|].
  edestruct (stats_loop_spec self) as (s & -> & _). eauto.
Qed.

End StatsTheorems.

(** ** The vector database accessor (claim C6) *)

Section AccessorTheorems.
Context {E : Env}.
Implicit Types (w : World).

(** C6: every call of [get_vector_db] builds the embedding function from
    the configured embedding model and calls the [Chroma] constructor with
    the configured collection name and persistence directory, in that
    order and with nothing else; what it returns is what the constructor
    gives, and a handle it returns carries those three values and an
    identity no earlier object has.  Two calls return handles that differ
    only in identity. *)
Theorem get_vector_db_from_config w :
  (∀ r w', get_vector_db w = (r, w') →
     trace w' = trace w ++ accessor_events
     ∧ (r = Return (configured_handle w) ∧ next_id w' = S (next_id w)
        ∨ ∃ s e, chroma_init (DEFAULT_COLLECTION app_config)
                   (CHROMA_PATH app_config)
                   {| model := EMBEDDING_MODEL app_config |} (vstore w)
                 = (s, Raise e) ∧ r = Raise e))
  ∧ (∀ s u, chroma_init (DEFAULT_COLLECTION app_config)
              (CHROMA_PATH app_config)
              {| model := EMBEDDING_MODEL app_config |} (vstore w)
            = (s, Return u) →
       ∃ w', get_vector_db w = (Return (configured_handle w), w')
             ∧ vstore w' = s)
  ∧ (∀ db1 w1 db2 w2,
       get_vector_db w = (Return db1, w1) →
       get_vector_db w1 = (Return db2, w2) →
       handle_id db1 ≠ handle_id db2
       ∧ collection_name db1 = collection_name db2
       ∧ persist_directory db1 = persist_directory db2
       ∧ embedding_function db1 = embedding_function db2).
Proof.
  split; [|split].
  - intros r w'. rewrite get_vector_db_spec.
    destruct (chroma_init _ _ _ _) as [s [u|e]] eqn:Hc; intros [= <- <-]; simpl.
    + split; [done|]. by left.
    + split; [done|]. right. eauto.
  - intros s u Hc. rewrite get_vector_db_spec, Hc. eexists. by split.
  - intros db1 w1 db2 w2. rewrite !get_vector_db_spec.
    destruct (chroma_init _ _ _ (vstore w)) as [s [u|e]]; [|done].
    intros [= <- <-].
    destruct (chroma_init _ _ _ _) as [s' [u'|e']]; [|done].
    intros [= <- <-]. simpl. repeat split; try done; lia.
Qed.

End AccessorTheorems.

(** ** The REST API (claims C3, C5 and C9) *)

Section ApiTheorems.
Context {E : Env}.
Implicit Types (w : World).

(** C3: a query that is empty or all whitespace fails with status 400
    and the query function is not called (the world, trace included, is
    unchanged); otherwise the query function is called once, and when it
    returns nothing or an empty string the endpoint fails with status 500,
    and when it returns a non-empty response the endpoint returns it as
    the message with [sources] null. *)
Theorem query_documents_cases (request : QueryRequest.t) w :
  let q := QueryRequest.query request in
  (PyStr.all_space q = true →
     query_documents request w
     = (Raise (HTTPException 400 "Query cannot be empty"), w))
  ∧ (PyStr.all_space q = false →
     ∀ s response,
       llm_query q (vstore w) = (s, Return response) →
       response_truthy response = false →
       query_documents request w
       = (Raise (HTTPException 500 "Failed to generate response"),
          set_vstore s (log_event (EvQuery q) w)))
  ∧ (PyStr.all_space q = false →
     ∀ s r,
       llm_query q (vstore w) = (s, Return (Some r)) →
       PyStr.truthy r = true →
       query_documents request w
       = (Return {| QueryResponse.message := r;
                    QueryResponse.sources := None |},
          set_vstore s (log_event (EvQuery q) w))).
Proof.
  intros q. unfold query_documents, try_except. fold q.
  rewrite strip_truthy, negb_involutive.
  split; [|split].
  - by intros ->.
  - intros -> s response Hq Hr. unfold bind, call_query. fold q. simpl.
    rewrite Hq. by rewrite Hr.
  - intros -> s r Hq Hr. unfold bind, call_query. simpl.
    rewrite Hq. simpl. by rewrite Hr.
Qed.

(** C5: whatever the state of the vector store, [GET /collections]
    returns exactly one entry, named after the configured default
    collection and with document count 0, and [GET /status] reports the
    available collections as the one-element list holding that name;
    neither touches the world. *)
Theorem collection_endpoints_are_stubs w :
  list_collections w
  = (Return
       {| CollectionsResponse.collections :=
            [ [ ("name", JStr (DEFAULT_COLLECTION app_config));
                ("document_count", JInt 0);
                ("last_updated", JNull);
                ("description", JStr "Default document collection") ] ] |},
     w)
  ∧ get_status w
    = (Return
         {| StatusResponse.status := "healthy";
            StatusResponse.ollama_model := OLLAMA_MODEL app_config;
            StatusResponse.embedding_model := EMBEDDING_MODEL app_config;
            StatusResponse.collections_available :=
              [DEFAULT_COLLECTION app_config] |},
       w)
  ∧ (∀ w2 : World,
       (list_collections w2).1 = (list_collections w).1
       ∧ (get_status w2).1 = (get_status w).1).
Proof. done. Qed.

(** [embed_documents] always returns. *)
Lemma embed_documents_returns (self : DocumentEmbedder) dp w :
  ∃ b w', embed_documents self dp w = (Return b, w').
Proof.
  rewrite embed_documents_spec. simpl.
  destruct (chunks_of _ _); [eauto|].
  destruct (store_chunks _ _). eauto.
Qed.

(** C9: when [embed_documents] reports failure, [POST /ingest] fails with
    status 500 and a detail that starts with "Ingestion failed:" (the
    400 it raised is caught by its own handler); it never fails with
    any other status; and every response it returns has [chunks_created]
    equal to 0, whatever was embedded. *)
Theorem ingest_documents_statuses (request : IngestRequest.t) w :
  (∀ w', embed_documents embedder (IngestRequest.directory_path request) w
         = (Return false, w') →
     ingest_documents request w
     = (Raise (HTTPException 500
                 ("Ingestion failed: " +:+ "400: Failed to ingest documents")),
        w'))
  ∧ (∀ e w', ingest_documents request w = (Raise e, w') →
       ∃ d, e = HTTPException 500 ("Ingestion failed: " +:+ d))
  ∧ (∀ r w', ingest_documents request w = (Return r, w') →
       IngestResponse.chunks_created r = 0
       ∧ embed_documents embedder (IngestRequest.directory_path request) w
         = (Return true, w')).
Proof.
  unfold ingest_documents, try_except, bind, lift.
  destruct (get_file_stats_returns embedder (IngestRequest.directory_path request))
    as [st ->].
  destruct (embed_documents_returns embedder
              (IngestRequest.directory_path request) w) as (b & w1 & ->).
  split; [|split].
  - intros w' [= -> ->]. done.
  - intros e w'. destruct b; simpl.
    + done.
    + intros [= <- <-]. eauto.
  - intros r w'. destruct b; simpl; [|done].
    intros [= <- <-]. done.
Qed.

End ApiTheorems.

(** ** The chat page (claim C7) *)

Section ChatTheorems.
Context {E : Env}.
Implicit Types (w : World).

(** C7: a submitted non-empty prompt appends exactly one user message
    whose content is the prompt and then exactly one assistant message
    (the response of the query function, the not-found text when the
    response is empty or null, or the error text when the query function
    raises) to the message history; the messages stored before are kept
    as they were, in front. *)
Theorem chat_appends_user_then_assistant (prompt : string) w :
  prompt ≠ "" →
  ∃ u a w',
    chat_input_handler (Some prompt) w = (Return tt, w')
    ∧ messages w' = messages w ++ [u; a]
    ∧ role u = "user" ∧ content u = prompt
    ∧ role a = "assistant"
    ∧ content a
      = match (llm_query prompt (vstore w)).2 with
        | Return response =>
            if response_truthy response then default "" response
            else not_found_msg
        | Raise e => "Sorry, I encountered an error: " +:+ str_exn e
        end.
Proof.
  intros Hp. unfold chat_input_handler.
  destruct prompt as [|c r]; [done|]. cbn [PyStr.truthy].
  unfold bind at 1. unfold now_strftime at 1. cbn iota.
  unfold bind at 1. unfold messages_append at 1. cbn iota.
  unfold try_except, bind, call_query. cbn [vstore log_event].
  destruct (llm_query (String c r) (vstore w)) as [s [resp|e]]; cbn.
  - destruct (response_truthy resp) eqn:Ht; cbn;
      do 3 eexists; (split; [reflexivity|]); cbn;
      rewrite <- app_assoc; (split; [reflexivity|]); done.
  - do 3 eexists. split; [reflexivity|]. cbn. rewrite <- app_assoc. done.
Qed.

End ChatTheorems.

(** ** Path translation of the webhook *)

Lemma append_cons (x : ascii) (a b : string) :
  String x a +:+ b = String x (a +:+ b).
Proof. done. Qed.

Lemma append_assoc (a b c : string) : (a +:+ b) +:+ c = a +:+ (b +:+ c).
Proof.
  induction a as [|x a IH]; [done|]. by rewrite !append_cons, IH.
Qed.

Lemma startswith_append (p s : string) : PyStr.startswith p (p +:+ s) = true.
Proof.
  induction p as [|c p IH]; [done|].
  rewrite append_cons. simpl. by rewrite Ascii.eqb_refl.
Qed.

Lemma drop_append (p s : string) : PyStr.drop (String.length p) (p +:+ s) = s.
Proof. induction p as [|c p IH]; [done|]. by rewrite append_cons. Qed.

Lemma length_append (a b : string) :
  String.length (a +:+ b) = (String.length a + String.length b)%nat.
Proof.
  induction a as [|c a IH]; [done|]. rewrite append_cons. simpl. by rewrite IH.
Qed.

(** Replacing a pattern that does not occur changes nothing. *)
Lemma replace_go_absent (old new s : string) (fuel : nat) :
  PyStr.contains old s = false →
  (String.length s ≤ fuel)%nat →
  PyStr.replace_go fuel old new s = s.
Proof.
  revert fuel. induction s as [|c r IH]; intros fuel Hc Hf.
  - by destruct fuel.
  - destruct fuel as [|fuel]; [simpl in Hf; lia|].
    cbn [PyStr.contains] in Hc. apply orb_false_elim in Hc as [Hs Hr].
    cbn [PyStr.replace_go]. rewrite Hs. rewrite IH; [done|done|].
    simpl in Hf. lia.
Qed.

(** Removing the user prefix from a path whose remainder does not
    contain it again leaves the remainder. *)
Lemma replace_prefix (c : ascii) (old rel : string) :
  PyStr.contains (String c old) rel = false →
  PyStr.replace (String c old) "" (String c old +:+ rel) = rel.
Proof.
  intros H. unfold PyStr.replace.
  rewrite append_cons. cbn [String.length PyStr.replace_go].
  rewrite <- !(append_cons c old rel).
  rewrite startswith_append.
  change (S (String.length old)) with (String.length (String c old)).
  rewrite drop_append.
  change ("" +:+ ?x) with x.
  apply replace_go_absent; [done|]. rewrite length_append. lia.
Qed.

Lemma endswith_char_append (c : ascii) (a : string) (d : ascii) (b : string) :
  PyStr.endswith_char c (a +:+ String d b) = PyStr.endswith_char c (String d b).
Proof.
  induction a as [|x a IH]; [done|].
  rewrite append_cons. cbn [PyStr.endswith_char]. rewrite IH.
  destruct a; [done|]. by rewrite append_cons.
Qed.

Lemma truthy_append (a : string) (d : ascii) (b : string) :
  PyStr.truthy (a +:+ String d b) = true.
Proof. by destruct a. Qed.

Section PathTranslation.
Context {E : Env}.

(** The translation the webhook computes for a path of the expected
    shape. *)
Lemma convert_nextcloud_path (uid rel : string) :
  PyStr.contains ("/" +:+ uid +:+ "/files/") rel = false →
  PyStr.startswith "/" rel = false →
  convert_nextcloud_path_to_filesystem (JStr (nextcloud_path uid rel)) (JStr uid)
  = Return (filesystem_path uid rel).
Proof.
  intros Hc Hs. unfold convert_nextcloud_path_to_filesystem, nextcloud_path,
    filesystem_path, format_value.
  replace ("/" +:+ uid +:+ "/files/" +:+ rel)
    with (("/" +:+ uid +:+ "/files/") +:+ rel)
    by (by rewrite !append_assoc).
  change ("/" +:+ uid +:+ "/files/") with (String "/" (uid +:+ "/files/")) in *.
  rewrite replace_prefix by done.
  unfold os_path_join. rewrite Hs.
  replace (NEXTCLOUD_PATH app_config +:+ "/" +:+ uid +:+ "/files")
    with ((NEXTCLOUD_PATH app_config +:+ "/" +:+ uid) +:+ "/files")
    by (by rewrite !append_assoc).
  rewrite truthy_append, endswith_char_append. cbn.
  by rewrite !append_assoc.
Qed.

End PathTranslation.

(** ** The webhook (claim C4) *)

Section WebhookTheorems.
Context {E : Env}.
Implicit Types (w : World).

(** [handle_file_created] never raises; it stops at the first check that
    fails. *)
Lemma handle_file_created_spec (target : string) w :
  let p := of_str target in
  handle_file_created target w
  = if negb (exists_ fs p) then
      (Return (failed_response
                 ("Failed to process file: " +:+ "File does not exist: " +:+ target)),
       w)
    else if negb (is_supported_file embedder p) then
      (Return (failed_response ("File type not supported: " +:+ suffix p)), w)
    else
      match loaded p with
      | [] =>
          (Return (failed_response
                     ("Failed to process file: " +:+ "Failed to load document")),
           log_event (EvPartition (str p)) w)
      | docs =>
          let chunks :=
            match split_documents (text_splitter embedder) docs with
            | Return chunks => chunks
            | Raise _ => []
            end in
          let w1 :=
            add_events [EvPartition (str p);
                        EvSplit (text_splitter embedder) docs] w in
          match get_vector_db w1 with
          | (Return db, w2) =>
              match call_add_documents db chunks w2 with
              | (Return _, w3) => (Return (success_response target), w3)
              | (Raise e, w3) =>
                  (Return (failed_response
                             ("Failed to process file: " +:+ str_exn e)), w3)
              end
          | (Raise e, w2) =>
              (Return (failed_response
                         ("Failed to process file: " +:+ str_exn e)), w2)
          end
      end.
Proof.
  intros p. unfold handle_file_created, try_except. fold p.
  destruct (exists_ fs p); cbn [negb]; [|done].
  destruct (is_supported_file embedder p); cbn [negb]; [|done].
  unfold bind at 1. rewrite load_document_spec.
  destruct (loaded p) as [|doc docs]; [done|].
  unfold bind at 1. rewrite chunk_documents_spec.
  rewrite !log_event_add, add_events_app. cbn [app].
  unfold bind.
  destruct (get_vector_db _) as [[db|e] w2]; [|done].
  destruct (call_add_documents db _ w2) as [[[]|e] w3]; done.
Qed.

Lemma dict_get_lookup (fields : list (string * json)) (key : string) (d v : json) :
  dict_lookup key fields = Some v → dict_get (JObj fields) key d = Return v.
Proof. intros H. unfold dict_get. by rewrite H. Qed.

(** C4 (amended): for a payload whose event class is the node-created
    event, whose path is "/{uid}/files/{rel}" and whose user id is
    [uid], where [rel] does not start with a slash and does not contain
    "/{uid}/files/" again, the webhook works on the path
    NEXTCLOUD_PATH/uid/files/rel and on that file alone: when the file
    exists, has a supported extension and loads, it is partitioned once,
    its document is split once, the store is opened and the chunks are
    added, and the answer is success (or failed, when the store raises);
    when the file does not exist, is not supported or does not load, the
    answer is failed and nothing is handed to the store.  For a payload
    whose event class is anything else (its [event], [node] and [user]
    entries being objects and its path a string, when present), the
    answer is the ignored status and the world is unchanged. *)
Theorem nextcloud_webhook_dispatch w :
  (∀ payload ev nd u uid rel,
     dict_lookup "event" payload = Some (JObj ev) →
     dict_lookup "class" ev = Some (JStr NodeCreatedEvent) →
     dict_lookup "node" ev = Some (JObj nd) →
     dict_lookup "path" nd = Some (JStr (nextcloud_path uid rel)) →
     dict_lookup "user" payload = Some (JObj u) →
     dict_lookup "uid" u = Some (JStr uid) →
     PyStr.contains ("/" +:+ uid +:+ "/files/") rel = false →
     PyStr.startswith "/" rel = false →
     let target := filesystem_path uid rel in
     let p := of_str target in
     nextcloud_webhook payload w = handle_file_created target w
     ∧ (exists_ fs p = true → is_supported_file embedder p = true →
        ∀ doc, loaded p = [doc] →
          let chunks :=
            match split_documents (text_splitter embedder) [doc] with
            | Return chunks => chunks
            | Raise _ => []
            end in
          let w1 :=
            add_events [EvPartition (str p);
                        EvSplit (text_splitter embedder) [doc]] w in
          nextcloud_webhook payload w
          = match get_vector_db w1 with
            | (Return db, w2) =>
                match call_add_documents db chunks w2 with
                | (Return _, w3) => (Return (success_response target), w3)
                | (Raise e, w3) =>
                    (Return (failed_response
                               ("Failed to process file: " +:+ str_exn e)), w3)
                end
            | (Raise e, w2) =>
                (Return (failed_response
                           ("Failed to process file: " +:+ str_exn e)), w2)
            end)
     ∧ (exists_ fs p = false ∨ is_supported_file embedder p = false
        ∨ loaded p = [] →
        ∃ msg w',
          nextcloud_webhook payload w = (Return (failed_response msg), w')
          ∧ vstore w' = vstore w
          ∧ next_id w' = next_id w
          ∧ List.filter is_store_event (trace w')
            = List.filter is_store_event (trace w)))
  ∧ (∀ payload event cls nd path u uid,
       dict_get (JObj payload) "event" (JObj []) = Return event →
       dict_get event "class" (JStr "") = Return cls →
       cls ≠ JStr NodeCreatedEvent →
       dict_get event "node" (JObj []) = Return nd →
       dict_get nd "path" (JStr "") = Return (JStr path) →
       dict_get (JObj payload) "user" (JObj []) = Return u →
       dict_get u "uid" (JStr "") = Return uid →
       nextcloud_webhook payload w = (Return ignored_response, w)).
Proof.
  split.
  - intros payload ev nd u uid rel Hev Hcl Hnd Hpath Hu Huid Hc Hs target p.
    assert (Hw : nextcloud_webhook payload w = handle_file_created target w).
    { unfold nextcloud_webhook, try_except, bind, lift.
      rewrite (dict_get_lookup _ _ _ _ Hev), (dict_get_lookup _ _ _ _ Hcl),
        (dict_get_lookup _ _ _ _ Hnd), (dict_get_lookup _ _ _ _ Hpath),
        (dict_get_lookup _ _ _ _ Hu), (dict_get_lookup _ _ _ _ Huid).
      rewrite (convert_nextcloud_path uid rel Hc Hs).
      rewrite String.eqb_refl. fold target.
      pose proof (handle_file_created_spec target w) as Hh. cbv zeta in Hh.
      rewrite Hh. repeat case_match; done. }
    split; [done|]. rewrite Hw. clear Hw.
    pose proof (handle_file_created_spec target w) as Hh. cbv zeta in Hh.
    fold p in Hh. rewrite Hh. clear Hh. split.
    + intros -> -> doc ->. done.
    + intros Hf. destruct (exists_ fs p) eqn:Hex; cbn [negb].
      2:{ eexists _, _. split; [done|]. done. }
      destruct (is_supported_file embedder p) eqn:Hsup; cbn [negb].
      2:{ eexists _, _. split; [done|]. done. }
      destruct Hf as [?|[?|Hl]]; [done..|]. rewrite Hl.
      eexists _, _. split; [done|]. cbn. repeat split.
      by rewrite store_events_app, app_nil_r.
  - intros payload event cls nd path u uid Hev Hcl Hne Hnd Hpath Hu Huid.
    unfold nextcloud_webhook, try_except, bind, lift.
    rewrite Hev, Hcl, Hnd, Hpath, Hu, Huid. cbn.
    destruct cls as [| | | |s| |]; try done.
    destruct (String.eqb s NodeCreatedEvent) eqn:Heq; [|done].
    apply String.eqb_eq in Heq. by subst.
Qed.

End WebhookTheorems.

(** * The model on concrete inputs *)

(** C1, as stated, fails: in the directory [/broken] two files are kept,
    the partitioner raises on [scan.pdf], and the splitter receives one
    document, not two. *)
Lemma broken_file_gives_no_document :
  ¬ one_document_per_kept_file (E:=Demo.env) Demo.self (Some "/broken") Demo.w0.
Proof.
  intros H.
  specialize (H (text_splitter Demo.self)
                [ document_of (of_str "/broken/ok.md")
                    ["Title"; "Body of /broken/ok.md"] (Demo.st 3) ]).
  assert (Hin : In (EvSplit (text_splitter Demo.self)
                      [ document_of (of_str "/broken/ok.md")
                          ["Title"; "Body of /broken/ok.md"] (Demo.st 3) ])
                   (trace (@embed_documents Demo.env Demo.self
                             (Some "/broken") Demo.w0).2)).
  { vm_compute. right. right. left. reflexivity. }
  specialize (H Hin). vm_compute in H. discriminate H.
Qed.

(** The same run, evaluated: both files are handed to the partitioner,
    and the call still succeeds on the one document. *)
Example broken_directory_run :
  map str (@kept_files Demo.env Demo.self (of_str "/broken"))
  = ["/broken/scan.pdf"; "/broken/ok.md"]
  ∧ List.length (@collected Demo.env Demo.self (of_str "/broken")) = 1%nat
  ∧ (@embed_documents Demo.env Demo.self (Some "/broken") Demo.w0).1
    = Return true.
Proof. vm_compute. done. Qed.

(** C1 (amended), on the directory [/data]: three files are kept (the
    upper-case [.PDF] among them, the executable and the pipe not), and
    the run succeeds with the library calls in the stated order. *)
Lemma embed_documents_pipeline_witness :
  trace (@embed_documents Demo.env Demo.self (Some "/data") Demo.w0).2
  = trace Demo.w0
    ++ map (λ p, EvPartition (str p))
           (@kept_files Demo.env Demo.self (of_str "/data"))
    ++ [EvSplit (text_splitter Demo.self)
                (@collected Demo.env Demo.self (of_str "/data"))]
    ++ [ EvOllamaEmbeddings "all-minilm";
         EvChroma "documents" "./chroma_db" {| model := "all-minilm" |} ]
    ++ [EvAddDocuments (@configured_handle Demo.env Demo.w0)
                       (@chunks_of Demo.env Demo.self (of_str "/data"))].
Proof.
  destruct (@embed_documents_pipeline Demo.env Demo.self (Some "/data") Demo.w0)
    as (_ & _ & _ & _ & _ & _ & H).
  exact (H eq_refl).
Defined.

Example data_directory_run :
  map str (@kept_files Demo.env Demo.self (of_str "/data"))
  = ["/data/notes.txt"; "/data/Report.PDF"; "/data/sub/page.html"]
  ∧ map (λ d, file_type (metadata d))
        (@collected Demo.env Demo.self (of_str "/data"))
    = [".txt"; ".pdf"; ".html"]
  ∧ (@embed_documents Demo.env Demo.self (Some "/data") Demo.w0).1
    = Return true
  ∧ (@embed_documents Demo.env Demo.self (Some "/empty") Demo.w0)
    = (Return false, Demo.w0).
Proof. by vm_compute. Qed.

(** C4, as stated, fails: a node-created event for an existing file of
    an unsupported type is answered with the failed status, and nothing is
    loaded, split or added. *)
Lemma unsupported_file_is_not_ingested :
  exists_ (@fs Demo.env) (of_str "/nc/admin/files/setup.exe") = true
  ∧ @nextcloud_webhook Demo.env
      (Demo.payload NodeCreatedEvent "/admin/files/setup.exe" "admin") Demo.w0
    = (Return (failed_response "File type not supported: .exe"), Demo.w0)
  ∧ ¬ webhook_ingests (E:=Demo.env)
        (Demo.payload NodeCreatedEvent "/admin/files/setup.exe" "admin")
        Demo.w0.
Proof.
  split; [by vm_compute|]. split; [by vm_compute|].
  intros (db & chunks & H). vm_compute in H. done.
Qed.

(** The prefix is removed wherever it occurs, not only in front: the
    translated path loses an inner "/admin/files/". *)
Example inner_prefix_is_removed :
  @convert_nextcloud_path_to_filesystem Demo.env
    (JStr "/admin/files/old/admin/files/report.txt") (JStr "admin")
  = Return "/nc/admin/files/oldreport.txt".
Proof. by vm_compute. Qed.

(** A payload whose [user] entry is not an object is answered with the
    error status, whatever its event class. *)
Example malformed_user_is_an_error :
  (@nextcloud_webhook Demo.env
     [ ("event", JObj [ ("class", JStr "OCP\Files\Events\Node\NodeDeletedEvent") ]);
       ("user", JInt 5) ] Demo.w0).1
  = Return [ ("status", JStr "error");
             ("message", JStr "object has no attribute 'get'") ].
Proof. by vm_compute. Qed.

(** C4 (amended), on a text file of user [admin]. *)
Lemma nextcloud_webhook_dispatch_witness :
  @nextcloud_webhook Demo.env
    (Demo.payload NodeCreatedEvent "/admin/files/report.txt" "admin") Demo.w0
  = @handle_file_created Demo.env "/nc/admin/files/report.txt" Demo.w0
  ∧ @nextcloud_webhook Demo.env
      (Demo.payload "OCP\Files\Events\Node\NodeWrittenEvent"
         "/admin/files/report.txt" "admin") Demo.w0
    = (Return ignored_response, Demo.w0).
Proof.
  destruct (@nextcloud_webhook_dispatch Demo.env Demo.w0) as [Hc Ho]. split.
  - refine (proj1 (Hc (Demo.payload NodeCreatedEvent "/admin/files/report.txt" "admin")
                      _ _ _ "admin" "report.txt" _ _ _ _ _ _ _ _));
      reflexivity.
  - refine (Ho (Demo.payload "OCP\Files\Events\Node\NodeWrittenEvent"
                  "/admin/files/report.txt" "admin")
               _ _ _ _ _ _ _ _ _ _ _ _ _); try reflexivity. discriminate.
Defined.

(** C10, on a directory that does not exist. *)
Lemma embed_documents_failure_witness :
  ∃ w', @embed_documents Demo.env Demo.self (Some "/missing") Demo.w0
        = (Return false, w')
        ∧ vstore w' = vstore Demo.w0
        ∧ next_id w' = next_id Demo.w0
        ∧ List.filter is_store_event (trace w')
          = List.filter is_store_event (trace Demo.w0).
Proof.
  apply (@embed_documents_failure_leaves_store Demo.env Demo.self
           (Some "/missing") Demo.w0).
  left. reflexivity.
Defined.

(** C8, on the directory [/data]. *)
Lemma get_file_stats_witness :
  ∃ s, @get_file_stats Demo.env Demo.self (Some "/data") = Return (StatsOk s)
       ∧ supported_files s ≤ total_files s
       ∧ supported_files s = sum_values (file_types s)
       ∧ (∀ k, k ∈ dom (file_types s) →
               k ∈ supported_extensions Demo.self
               ∧ PyStr.lower k = k
               ∧ ∃ p, In p (@regular_files Demo.env (of_str "/data"))
                      ∧ k = PyStr.lower (suffix p))
       ∧ total_files s
         = Z.of_nat (List.length (@regular_files Demo.env (of_str "/data")))
       ∧ total_size s
         = sum_list (map (@size_of Demo.env)
                         (@regular_files Demo.env (of_str "/data"))).
Proof.
  apply (@get_file_stats_invariants Demo.env Demo.self (Some "/data")).
  reflexivity.
Defined.

Example data_directory_stats :
  ∃ s, @get_file_stats Demo.env Demo.self (Some "/data") = Return (StatsOk s)
       ∧ total_files s = 4 ∧ supported_files s = 3 ∧ total_size s = 454
       ∧ file_types s !! ".pdf" = Some 1
       ∧ file_types s !! ".txt" = Some 1
       ∧ file_types s !! ".html" = Some 1
       ∧ file_types s !! ".exe" = None.
Proof. eexists. split; [reflexivity|]. by vm_compute. Qed.

(** C3, on three queries. *)
Lemma query_documents_witness :
  @query_documents Demo.env (Demo.ask "   ") Demo.w0
  = (Raise (HTTPException 400 "Query cannot be empty"), Demo.w0)
  ∧ (@query_documents Demo.env (Demo.ask "nothing") Demo.w0).1
    = Raise (HTTPException 500 "Failed to generate response")
  ∧ (@query_documents Demo.env (Demo.ask "what is in my notes?") Demo.w0).1
    = Return {| QueryResponse.message := "Answer to: what is in my notes?";
                QueryResponse.sources := None |}.
Proof.
  split; [|split].
  - apply (@query_documents_cases Demo.env (Demo.ask "   ") Demo.w0).
    reflexivity.
  - destruct (@query_documents_cases Demo.env (Demo.ask "nothing") Demo.w0)
      as (_ & H & _).
    rewrite (H eq_refl Demo.empty_store None eq_refl eq_refl). reflexivity.
  - destruct (@query_documents_cases Demo.env
                (Demo.ask "what is in my notes?") Demo.w0) as (_ & _ & H).
    rewrite (H eq_refl Demo.empty_store _ eq_refl eq_refl). reflexivity.
Defined.

(** A query function that raises is answered with status 500 too. *)
Example query_error_is_500 :
  (@query_documents Demo.env (Demo.ask "boom") Demo.w0).1
  = Raise (HTTPException 500 "Query failed: connection refused").
Proof. by vm_compute. Qed.

(** C7, on the prompt "hello". *)
Lemma chat_witness :
  ∃ u a w',
    @chat_input_handler Demo.env (Some "hello") Demo.w0 = (Return tt, w')
    ∧ messages w' = messages Demo.w0 ++ [u; a]
    ∧ role u = "user" ∧ content u = "hello"
    ∧ role a = "assistant"
    ∧ content a
      = match (@llm_query Demo.env "hello" (vstore Demo.w0)).2 with
        | Return response =>
            if response_truthy response then default "" response
            else not_found_msg
        | Raise e => "Sorry, I encountered an error: " +:+ str_exn e
        end.
Proof.
  apply (@chat_appends_user_then_assistant Demo.env "hello" Demo.w0).
  discriminate.
Defined.

Example chat_run :
  messages (@chat_input_handler Demo.env (Some "boom") Demo.w0).2
  = [ {| role := "user"; content := "boom"; timestamp := "12:00:00" |};
      {| role := "assistant";
         content := "Sorry, I encountered an error: connection refused";
         timestamp := "12:00:01" |} ].
Proof. by vm_compute. Qed.

(** C9, on a directory without files and on one with files. *)
Lemma ingest_documents_witness :
  (@ingest_documents Demo.env (Demo.ingest "/empty") Demo.w0).1
  = Raise (HTTPException 500
             "Ingestion failed: 400: Failed to ingest documents")
  ∧ ∀ r w', @ingest_documents Demo.env (Demo.ingest "/data") Demo.w0
            = (Return r, w') →
            IngestResponse.chunks_created r = 0.
Proof.
  split.
  - destruct (@ingest_documents_statuses Demo.env (Demo.ingest "/empty") Demo.w0)
      as (H & _ & _).
    rewrite (H Demo.w0 eq_refl). reflexivity.
  - intros r w' H.
    destruct (@ingest_documents_statuses Demo.env (Demo.ingest "/data") Demo.w0)
      as (_ & _ & H2).
    exact (proj1 (H2 r w' H)).
Defined.

Example ingest_success_run :
  (@ingest_documents Demo.env (Demo.ingest "/data") Demo.w0).1
  = Return {| IngestResponse.message := "Documents ingested successfully";
              IngestResponse.files_processed := 3;
              IngestResponse.chunks_created := 0 |}
  ∧ List.length (vstore (@ingest_documents Demo.env (Demo.ingest "/data")
                           Demo.w0).2) = 3%nat.
Proof. by vm_compute. Qed.

(** C6, in the concrete environment: two calls, two handles. *)
Lemma get_vector_db_witness :
  ∃ w1 w2,
    @get_vector_db Demo.env Demo.w0
    = (Return {| handle_id := 0; collection_name := "documents";
                 persist_directory := "./chroma_db";
                 embedding_function := {| model := "all-minilm" |} |}, w1)
    ∧ @get_vector_db Demo.env w1
      = (Return {| handle_id := 1; collection_name := "documents";
                   persist_directory := "./chroma_db";
                   embedding_function := {| model := "all-minilm" |} |}, w2).
Proof.
  destruct (@get_vector_db_from_config Demo.env Demo.w0) as (_ & H & _).
  destruct (H Demo.empty_store tt eq_refl) as (w1 & H1 & _).
  exists w1. eexists. split; [exact H1|].
  injection H1 as <-. reflexivity.
Defined.

(** * Further properties of the code *)

(** ** Configuration *)

(** X1: a configuration written to the five environment variables is read
    back unchanged (the default collection through [COLLECTION_NAME]);
    with none of them set every field has its default; and no other
    variable has any influence. *)
Theorem Config_environ_round_trip (c : Config) :
  Config_of_environ (environ_of_Config c) = c
  ∧ Config_of_environ ∅ = default_config
  ∧ (∀ environ key value,
       key ∉ [ "NEXTCLOUD_PATH"; "OLLAMA_MODEL"; "EMBEDDING_MODEL";
               "COLLECTION_NAME"; "CHROMA_PATH" ] →
       Config_of_environ (<[key := value]> environ) = Config_of_environ environ).
Proof.
  split; [|split].
  - destruct c. unfold Config_of_environ, environ_of_Config, getenv. simpl.
    by simplify_map_eq.
  - done.
  - intros environ key value Hk.
    unfold Config_of_environ, getenv.
    rewrite !lookup_insert_ne; [done|..]; intros ->; apply Hk; set_solver.
Qed.

(** ** Supported files *)

Lemma suffix_name (p : Path) : suffix p = suffix_of_name (name p).
Proof. done. Qed.







(** X3: a name without a dot, a name whose only dot is its first
    character (a hidden file such as [.pdf]) and a name that ends in its
    last dot have no suffix, and an embedder built by [__init__] never
    supports them. *)
Theorem is_supported_file_needs_suffix (c : Config) (p : Path) :
  PyStr.rfind_dot (name p) = None
  ∨ PyStr.rfind_dot (name p) = Some 0%nat
  ∨ PyStr.rfind_dot (name p) = Some (String.length (name p) - 1)%nat →
  suffix p = "" ∧ is_supported_file (DocumentEmbedder_init c) p = false.
Proof.
  intros H.
  assert (Hs : suffix p = "").
  { rewrite suffix_name. unfold suffix_of_name.
    destruct H as [H|[H|H]]; rewrite H; [done|done|].
    by rewrite Nat.ltb_irrefl, andb_false_r. }
  split; [done|]. unfold is_supported_file. rewrite Hs. by vm_compute.
Qed.

(** ** Loading one document *)

Section MoreEmbedderTheorems.
Context {E : Env}.
Implicit Types (self : DocumentEmbedder) (w : World) (p : Path).

(** X4: [load_document] never raises and calls the partitioner exactly
    once; it returns at most one document, and none exactly when the
    partitioner raises or the path does not exist; a file that partitions
    into no element at all still gives a document, with empty text; the
    metadata of the document name the path it was loaded from. *)
Theorem load_document_at_most_one self p w :
  ∃ docs,
    load_document self p w = (Return docs, log_event (EvPartition (str p)) w)
    ∧ (List.length docs ≤ 1)%nat
    ∧ (docs = [] ↔ (∃ e, partition (str p) = Raise e) ∨ exists_ fs p = false)
    ∧ (partition (str p) = Return [] → exists_ fs p = true →
       ∃ d, docs = [d] ∧ page_content d = "")
    ∧ (∀ d, In d docs →
         source (metadata d) = str p
         ∧ filename (metadata d) = name p
         ∧ file_type (metadata d) = PyStr.lower (suffix p)
         ∧ file_size (metadata d) = size_of p).
Proof.
  exists (loaded p). split; [apply load_document_spec|].
  unfold loaded, stat, exists_, size_of.
  destruct (partition (str p)) as [els|e]; destruct (resolve fs p) as [n|];
    simpl.
  - split; [lia|]. split.
    { split; [done|]. intros [[e He]|He]; done. }
    split.
    { intros [= ->] _. eexists. by split. }
    intros d [<-|[]]. done.
  - split; [lia|]. split; [split; [by right|done]|]. split; [done|]. done.
  - split; [lia|]. split; [split; [left; eauto|done]|]. split; [done|]. done.
  - split; [lia|]. split; [split; [left; eauto|done]|]. split; [done|]. done.
Qed.

(** ** File statistics *)

Lemma stats_loop_lookup self (k : string) (paths : list Path) (stats : Stats) :
  ∃ s,
    stats_loop self paths stats = Return s
    ∧ default 0 (file_types s !! k)
      = default 0 (file_types stats !! k)
        + Z.of_nat (List.length (files_with_extension self k paths))
    ∧ (file_types s !! k = None
       ↔ file_types stats !! k = None ∧ files_with_extension self k paths = []).
Proof.
  revert stats. induction paths as [|p r IH]; intros stats.
  - exists stats. simpl. split; [done|]. split; [lia|]. tauto.
  - cbn [stats_loop]. rewrite stats_file_spec.
    unfold files_with_extension. cbn [List.filter]. fold (files_with_extension self k r).
    assert (Hk : keep self p = is_file fs p && is_supported_file self p) by done.
    rewrite Hk. clear Hk.
    destruct (is_file fs p); cbn [andb]; [|apply IH].
    destruct (is_supported_file self p); cbn [andb]; [|].
    + edestruct IH as (s & -> & H1 & H2). exists s. split; [done|].
      cbn [file_types] in *.
      destruct (decide (PyStr.lower (suffix p) = k)) as [Heq|Hne].
      * rewrite bool_decide_eq_true_2 by done. subst k.
        rewrite lookup_insert_eq in H1, H2. cbn [List.length].
        split; [simpl in H1; lia|].
        split; [intros H; apply H2 in H as [? _]; done|intros [_ ?]; done].
      * rewrite bool_decide_eq_false_2 by done.
        rewrite lookup_insert_ne in H1, H2 by done. done.
    + edestruct IH as (s & -> & H1 & H2). exists s. done.
Qed.

(** X5: in the statistics of [get_file_stats], the count of an
    extension is the number of walked regular supported files with that
    lowercased extension, and an extension no such file has is not a key
    (no key ever maps to 0); the error dictionary is returned exactly for
    a path that does not exist. *)
Theorem file_types_counts self dp :
  match get_file_stats self dp with
  | Return (StatsOk s) =>
      exists_ fs (target_dir self dp) = true
      ∧ ∀ k,
          file_types s !! k
          = match List.length
                    (files_with_extension self k (rglob fs (target_dir self dp)))
            with
            | O => None
            | S n => Some (Z.of_nat (S n))
            end
  | Return (StatsError msg) =>
      exists_ fs (target_dir self dp) = false
      ∧ msg = "Directory does not exist"
  | Raise _ => False
  end.
Proof.
  unfold get_file_stats. fold (target_dir self dp).
  destruct (exists_ fs (target_dir self dp)); cbn [negb]; [|done].
  destruct (stats_loop_spec self (rglob fs (target_dir self dp))
              {| total_files := 0; supported_files := 0;
                 file_types := ∅; total_size := 0 |}) as (s & Hs & _).
  rewrite Hs. split; [done|]. intros k.
  destruct (stats_loop_lookup self k (rglob fs (target_dir self dp))
              {| total_files := 0; supported_files := 0;
                 file_types := ∅; total_size := 0 |}) as (s' & Hs' & H1 & H2).
  rewrite Hs in Hs'. injection Hs' as <-.
  cbn [file_types] in *. rewrite lookup_empty in H1, H2.
  destruct (files_with_extension self k _) as [|q l] eqn:Hf.
  - by apply H2.
  - destruct (file_types s !! k) as [v|] eqn:Hv.
    + unfold default in H1. simpl in *. f_equal. lia.
    + by destruct (proj1 H2 eq_refl) as [_ ?].
Qed.

(** The number of supported files [get_file_stats] reports. *)
Lemma get_supported_files_kept self dp :
  ∃ st, get_file_stats self dp = Return st
        ∧ get_supported_files st
          = Z.of_nat (List.length (kept_files self (target_dir self dp))).
Proof.
  unfold get_file_stats. fold (target_dir self dp).
  destruct (exists_ fs (target_dir self dp)) eqn:Hex; cbn [negb].
  - edestruct (stats_loop_spec self (rglob fs (target_dir self dp)))
      as (s & -> & _ & H & _).
    eexists. split; [done|]. simpl in *. unfold kept_files. lia.
  - eexists. split; [done|]. simpl.
    by rewrite (not_dir_no_kept_files self _ (not_exists_not_dir _ Hex)).
Qed.


Lemma collected_at_most_kept self d :
  (List.length (collected self d) ≤ List.length (kept_files self d))%nat.
Proof.
  unfold collected.
  induction (kept_files self d) as [|p l IH]; [done|].
  cbn [flat_map List.length]. rewrite length_app.
  assert (Hl : (List.length (loaded p) ≤ 1)%nat).
  { unfold loaded. destruct (partition (str p)), (stat fs p); simpl; lia. }
  lia.
Qed.


End MoreEmbedderTheorems.

(** ** Ingestion again *)

Section MoreIngestionTheorems.
Context {E : Env}.
Implicit Types (self : DocumentEmbedder) (w : World).

(** What a successful [store_chunks] leaves behind. *)
Lemma store_chunks_success (chunks : list Document) w :
  is_Return (store_chunks chunks w).1 = true →
  next_id (store_chunks chunks w).2 = S (next_id w)
  ∧ clock (store_chunks chunks w).2 = clock w
  ∧ messages (store_chunks chunks w).2 = messages w.
Proof.
  destruct (store_chunks chunks w) as [r w'] eqn:Hs. cbn [fst snd].
  intros Hr. unfold store_chunks, bind in Hs. rewrite get_vector_db_spec in Hs.
  destruct (chroma_init _ _ _ _) as [s [[]|e]];
    [|injection Hs as <- <-; done].
  unfold call_add_documents in Hs. cbn in Hs.
  destruct (chroma_add_documents _ _ _) as [s2 [[]|e]];
    [|injection Hs as <- <-; done].
  destruct chroma_has_persist.
  - unfold call_persist in Hs. cbn in Hs.
    destruct (chroma_persist _ _) as [s3 [[]|e]]; injection Hs as <- <-; done.
  - injection Hs as <- <-. done.
Qed.

(** The trace and the object counter after a successful ingestion. *)
Lemma embed_documents_success self dp w :
  (embed_documents self dp w).1 = Return true →
  chunks_of self (target_dir self dp) ≠ []
  ∧ trace (embed_documents self dp w).2
    = trace w ++ ingestion_run self (target_dir self dp) (configured_handle w)
  ∧ next_id (embed_documents self dp w).2 = S (next_id w).
Proof.
  rewrite embed_documents_spec. cbv zeta.
  set (d := target_dir self dp).
  destruct (chunks_of self d) as [|c cs] eqn:Hch; [done|].
  pose proof (store_chunks_trace (c :: cs) (add_events (ingest_events self d) w))
    as Ht.
  pose proof (store_chunks_success (c :: cs) (add_events (ingest_events self d) w))
    as Hn.
  destruct (store_chunks (c :: cs) _) as [[[]|e] w2]; simpl in *; [|done].
  intros _. split; [done|]. split; [|by apply Hn].
  rewrite (Ht eq_refl). unfold ingestion_run, ingest_events. rewrite Hch.
  unfold chunks_of in Hch.
  destruct (collected self d) as [|doc docs]; [done|].
  by rewrite <- !app_assoc.
Qed.

(** X7: ingestion keeps no record of what it stored.  When
    [embed_documents] succeeds twice in a row on the same directory, the
    second run partitions every kept file again, splits again, opens a
    new handle and adds the very same chunks a second time. *)
Theorem embed_documents_twice self dp w :
  (embed_documents self dp w).1 = Return true →
  (embed_documents self dp (embed_documents self dp w).2).1 = Return true →
  let d := target_dir self dp in
  let w1 := (embed_documents self dp w).2 in
  let w2 := (embed_documents self dp w1).2 in
  trace w2
  = trace w ++ ingestion_run self d (configured_handle w)
            ++ ingestion_run self d (configured_handle w1)
  ∧ handle_id (configured_handle w1) ≠ handle_id (configured_handle w)
  ∧ In (EvAddDocuments (configured_handle w) (chunks_of self d)) (trace w2)
  ∧ In (EvAddDocuments (configured_handle w1) (chunks_of self d)) (trace w2).
Proof.
  intros H1 H2 d w1 w2.
  destruct (embed_documents_success self dp w H1) as (_ & Ht1 & Hn1).
  destruct (embed_documents_success self dp _ H2) as (_ & Ht2 & _).
  fold w1 in Ht1, Hn1, Ht2. fold w2 in Ht2. fold d in Ht1, Ht2.
  assert (Hin : ∀ db, In (EvAddDocuments db (chunks_of self d))
                        (ingestion_run self d db)).
  { intros db. unfold ingestion_run. rewrite !in_app_iff.
    right. right. right. by left. }
  rewrite Ht2, Ht1, <- app_assoc. split; [done|].
  split; [simpl; lia|]. rewrite !in_app_iff. split.
  - right. left. apply Hin.
  - right. right. apply Hin.
Qed.

(** X8: a successful [POST /ingest] reports as [files_processed] the
    number of kept files of the directory, counted after the ingestion:
    files on which the partitioning failed are counted too, so the number
    is at least the number of documents, and at least one. *)
Theorem ingest_documents_files_processed (request : IngestRequest.t) w r w' :
  ingest_documents request w = (Return r, w') →
  let d := target_dir embedder (IngestRequest.directory_path request) in
  IngestResponse.files_processed r
  = Z.of_nat (List.length (kept_files embedder d))
  ∧ 1 ≤ Z.of_nat (List.length (collected embedder d))
      ≤ IngestResponse.files_processed r
  ∧ IngestResponse.message r = "Documents ingested successfully".
Proof.
  intros H d. unfold ingest_documents, try_except, bind, lift in H.
  destruct (get_supported_files_kept embedder (IngestRequest.directory_path request))
    as (st & Hst & Hn).
  rewrite Hst in H.
  pose proof (embed_documents_success embedder
                (IngestRequest.directory_path request) w) as Hs.
  destruct (embed_documents_returns embedder
              (IngestRequest.directory_path request) w) as (b & w1 & Hb).
  rewrite Hb in H, Hs. destruct b; simpl in H; [|done].
  injection H as <- <-. simpl. fold d in Hn, Hs.
  destruct (Hs eq_refl) as (Hch & _).
  pose proof (collected_at_most_kept embedder d) as Hle.
  split; [done|]. split; [|done]. split; [|lia].
  unfold chunks_of in Hch. destruct (collected embedder d); [done|].
  simpl. lia.
Qed.

End MoreIngestionTheorems.

(** ** The REST API again *)

Section MoreApiTheorems.
Context {E : Env}.
Implicit Types (w : World).


(** X10: [POST /query] hands the query string to the query function as
    it came, not stripped, exactly once when it is not blank and not at
    all when it is blank; nothing else is called. *)
Theorem query_documents_calls (request : QueryRequest.t) w :
  trace (query_documents request w).2
  = trace w
    ++ (if PyStr.all_space (QueryRequest.query request) then []
        else [EvQuery (QueryRequest.query request)]).
Proof.
  unfold query_documents, try_except. rewrite strip_truthy, negb_involutive.
  destruct (PyStr.all_space _); [simpl; by rewrite app_nil_r|].
  unfold bind, call_query. simpl.
  destruct (llm_query _ _) as [s [resp|e]]; simpl.
  - by destruct (response_truthy resp).
  - by destruct (is_HTTPException e).
Qed.

(** X11: when the query function raises, [POST /query] answers with
    status 500 and "Query failed: ..." unless what was raised is itself
    an [HTTPException], which is passed on with its own status and
    detail; so the only statuses the endpoint produces by itself are 400
    and 500. *)
Theorem query_documents_raise (request : QueryRequest.t) w s e :
  PyStr.all_space (QueryRequest.query request) = false →
  llm_query (QueryRequest.query request) (vstore w) = (s, Raise e) →
  (query_documents request w).1
  = Raise (match e with
           | HTTPException c d => HTTPException c d
           | _ => HTTPException 500 ("Query failed: " +:+ str_exn e)
           end).
Proof.
  intros Hq Hl. unfold query_documents, try_except.
  rewrite strip_truthy, Hq. unfold bind, call_query. simpl. rewrite Hl.
  by destruct e.
Qed.

Context {D : EnvDelete E}.

(** X12: [DELETE /collections/{name}] acts on the configured default
    collection whatever name is given: the name only appears in the
    message.  It never answers 501: without a [delete_collection] method
    the 501 it raises is caught by its own handler and becomes a 500,
    like every other failure. *)
Theorem delete_collection_ignores_name (collection_name : string) w :
  (∀ other,
     (delete_collection other w).2 = (delete_collection collection_name w).2
     ∧ is_Return (delete_collection other w).1
       = is_Return (delete_collection collection_name w).1)
  ∧ (∀ resp, (delete_collection collection_name w).1 = Return resp →
       resp = [ ("message",
                 JStr ("Collection '" +:+ collection_name
                       +:+ "' deleted successfully")) ]
       ∧ ∃ s, chroma_delete_collection (configured_handle w) s
              = (vstore (delete_collection collection_name w).2, Return tt))
  ∧ (∀ e, (delete_collection collection_name w).1 = Raise e →
       ∃ d, e = HTTPException 500 ("Failed to delete collection: " +:+ d))
  ∧ (chroma_has_delete_collection = false →
     ∀ s u, chroma_init (DEFAULT_COLLECTION app_config) (CHROMA_PATH app_config)
              {| model := EMBEDDING_MODEL app_config |} (vstore w)
            = (s, Return u) →
     (delete_collection collection_name w).1
     = Raise (HTTPException 500
                ("Failed to delete collection: "
                 +:+ "501: Collection deletion not implemented"))).
Proof.
  assert (Hspec : ∀ n,
    delete_collection n w
    = match get_vector_db w with
      | (Return db, w1) =>
          if chroma_has_delete_collection then
            match chroma_delete_collection db (vstore w1) with
            | (s, Return _) =>
                (Return [ ("message",
                           JStr ("Collection '" +:+ n
                                 +:+ "' deleted successfully")) ],
                 set_vstore s w1)
            | (s, Raise e) =>
                (Raise (HTTPException 500
                          ("Failed to delete collection: " +:+ str_exn e)),
                 set_vstore s w1)
            end
          else
            (Raise (HTTPException 500
                      ("Failed to delete collection: "
                       +:+ "501: Collection deletion not implemented")), w1)
      | (Raise e, w1) =>
          (Raise (HTTPException 500
                    ("Failed to delete collection: " +:+ str_exn e)), w1)
      end).
  { intros n. unfold delete_collection, try_except, bind.
    destruct (get_vector_db w) as [[db|e] w1]; [|done].
    destruct chroma_has_delete_collection; [|done].
    unfold call_delete_collection.
    destruct (chroma_delete_collection db (vstore w1)) as [s [[]|e]]; done. }
  split; [|split; [|split]].
  - intros other. rewrite !Hspec.
    destruct (get_vector_db w) as [[db|e] w1]; [|done].
    destruct chroma_has_delete_collection; [|done].
    destruct (chroma_delete_collection db (vstore w1)) as [s [[]|e]]; done.
  - intros resp. rewrite Hspec, get_vector_db_spec.
    destruct (chroma_init _ _ _ _) as [s [[]|e]]; [|done].
    destruct chroma_has_delete_collection; [|done]. cbn [vstore].
    destruct (chroma_delete_collection (configured_handle w) s)
      as [s2 [[]|e]] eqn:Hd; [|done].
    intros [= <-]. split; [done|]. exists s. by rewrite Hd.
  - intros e. rewrite Hspec.
    destruct (get_vector_db w) as [[db|e'] w1].
    + destruct chroma_has_delete_collection.
      * destruct (chroma_delete_collection db (vstore w1)) as [s [[]|e'']];
          [done|]. intros [= <-]. eauto.
      * intros [= <-]. eauto.
    + intros [= <-]. eauto.
  - intros Hno s u Hc. rewrite Hspec, get_vector_db_spec, Hc, Hno. done.
Qed.

End MoreApiTheorems.

(** ** The webhook again *)

Section MoreWebhookTheorems.
Context {E : Env}.
Implicit Types (w : World).

(** X13: a path that does not contain "/{uid}/files/" is not confined to
    the user's directory: when it starts with a slash, the translation
    returns it as it is, with no trace of NEXTCLOUD_PATH, and otherwise
    it is appended to NEXTCLOUD_PATH/uid/files. *)
Theorem convert_path_without_prefix (uid nc_path : string) :
  PyStr.contains ("/" +:+ uid +:+ "/files/") nc_path = false →
  convert_nextcloud_path_to_filesystem (JStr nc_path) (JStr uid)
  = Return (if PyStr.startswith "/" nc_path then nc_path
            else NEXTCLOUD_PATH app_config +:+ "/" +:+ uid +:+ "/files"
                 +:+ "/" +:+ nc_path).
Proof.
  intros Hc. unfold convert_nextcloud_path_to_filesystem, format_value.
  unfold PyStr.replace. rewrite replace_go_absent; [|done|lia].
  unfold os_path_join. destruct (PyStr.startswith "/" nc_path); [done|].
  replace (NEXTCLOUD_PATH app_config +:+ "/" +:+ uid +:+ "/files")
    with ((NEXTCLOUD_PATH app_config +:+ "/" +:+ uid) +:+ "/files")
    by (by rewrite !append_assoc).
  rewrite truthy_append, endswith_char_append. cbn.
  by rewrite !append_assoc.
Qed.

Lemma handle_file_created_status (target : string) w :
  ∃ resp w', handle_file_created target w = (Return resp, w')
             ∧ known_status resp
             ∧ dict_lookup "status" resp ≠ Some (JStr "ignored")
             ∧ dict_lookup "status" resp ≠ Some (JStr "error").
Proof.
  pose proof (handle_file_created_spec target w) as H. cbv zeta in H.
  rewrite H. clear H.
  assert (Hf : ∀ m, known_status (failed_response m)).
  { intros m. exists "failed". split; [done|]. simpl. auto. }
  assert (Hs : known_status (success_response target)).
  { exists "success". split; [done|]. simpl. auto. }
  repeat case_match; eexists _, _; (split; [reflexivity|]); split; eauto; done.
Qed.

(** X14: the webhook never raises: whatever dictionary it is given,
    well formed or not, it answers with a dictionary whose [status] is
    one of success, failed, ignored and error. *)
Theorem nextcloud_webhook_total (payload : list (string * json)) w :
  ∃ resp w', nextcloud_webhook payload w = (Return resp, w')
             ∧ known_status resp.
Proof.
  assert (He : ∀ m, known_status [ ("status", JStr "error"); ("message", JStr m) ]).
  { intros m. exists "error". split; [done|]. simpl. auto. }
  assert (Hi : known_status ignored_response).
  { exists "ignored". split; [done|]. simpl. auto. }
  unfold nextcloud_webhook, try_except, bind, lift.
  destruct (dict_get (JObj payload) "event" (JObj [])) as [event|e]; [|eauto].
  destruct (dict_get event "class" (JStr "")) as [cls|e]; [|eauto].
  destruct (dict_get event "node" (JObj [])) as [nd|e]; [|eauto].
  destruct (dict_get nd "path" (JStr "")) as [path|e]; [|eauto].
  destruct (dict_get (JObj payload) "user" (JObj [])) as [u|e]; [|eauto].
  destruct (dict_get u "uid" (JStr "")) as [uid|e]; [|eauto].
  destruct (convert_nextcloud_path_to_filesystem path uid) as [target|e];
    [|eauto].
  destruct cls as [| | | |s| |]; try (eexists _, _; split; [reflexivity|done]).
  destruct (String.eqb s NodeCreatedEvent);
    [|eexists _, _; split; [reflexivity|done]].
  destruct (handle_file_created_status target w) as (resp & w' & -> & Hk & _).
  eauto.
Qed.

(** X15: a payload whose event class is not the node-created event,
    or cannot even be read, never has any effect: the world after the
    call is the world before it, and the answer is ignored or error. *)
Theorem nextcloud_webhook_other_events (payload : list (string * json)) w :
  event_class payload ≠ Some (JStr NodeCreatedEvent) →
  ∃ resp,
    nextcloud_webhook payload w = (Return resp, w)
    ∧ (resp = ignored_response
       ∨ ∃ m, resp = [ ("status", JStr "error"); ("message", JStr m) ]).
Proof.
  intros Hc. unfold event_class in Hc.
  unfold nextcloud_webhook, try_except, bind, lift.
  destruct (dict_get (JObj payload) "event" (JObj [])) as [event|e]; [|eauto].
  destruct (dict_get event "class" (JStr "")) as [cls|e]; [|eauto].
  destruct (dict_get event "node" (JObj [])) as [nd|e]; [|eauto].
  destruct (dict_get nd "path" (JStr "")) as [path|e]; [|eauto].
  destruct (dict_get (JObj payload) "user" (JObj [])) as [u|e]; [|eauto].
  destruct (dict_get u "uid" (JStr "")) as [uid|e]; [|eauto].
  destruct (convert_nextcloud_path_to_filesystem path uid) as [target|e];
    [|eauto].
  destruct cls as [| | | |s| |]; try (eexists; split; [reflexivity|by left]).
  destruct (String.eqb s NodeCreatedEvent) eqn:Heq;
    [|eexists; split; [reflexivity|by left]].
  apply String.eqb_eq in Heq. by subst.
Qed.

(** X16: unlike [embed_documents], the webhook does not check that
    chunking produced anything: when the splitter raises on the loaded
    document, [handle_file_created] still opens the store, adds the empty
    list of chunks and, if the store accepts that, reports success for the
    file. *)
Theorem handle_file_created_split_failure (target : string) w doc e s u s' u' :
  let p := of_str target in
  exists_ fs p = true →
  is_supported_file embedder p = true →
  loaded p = [doc] →
  split_documents (text_splitter embedder) [doc] = Raise e →
  chroma_init (DEFAULT_COLLECTION app_config) (CHROMA_PATH app_config)
    {| model := EMBEDDING_MODEL app_config |} (vstore w) = (s, Return u) →
  chroma_add_documents (configured_handle w) [] s = (s', Return u') →
  (handle_file_created target w).1 = Return (success_response target)
  ∧ vstore (handle_file_created target w).2 = s'
  ∧ trace (handle_file_created target w).2
    = trace w
      ++ [EvPartition (str p); EvSplit (text_splitter embedder) [doc]]
      ++ accessor_events
      ++ [EvAddDocuments (configured_handle w) []].
Proof.
  intros p Hex Hsup Hl Hsp Hci Hadd.
  pose proof (handle_file_created_spec target w) as H. cbv zeta in H.
  fold p in H. rewrite H, Hex, Hsup, Hl, Hsp. clear H. cbn [negb].
  rewrite get_vector_db_spec. cbn [vstore add_events]. rewrite Hci.
  unfold call_add_documents. cbn [vstore log_event].
  change (configured_handle (add_events _ w)) with (configured_handle w).
  rewrite Hadd. cbn.
  by rewrite <- !app_assoc.
Qed.

End MoreWebhookTheorems.

(** ** The chat page again *)

Section MoreChatTheorems.
Context {E : Env}.
Implicit Types (w : World).

(** One run of the handler on a non-empty prompt. *)
Lemma chat_input_handler_run (prompt : string) w :
  prompt ≠ "" →
  ∃ u a w',
    chat_input_handler (Some prompt) w = (Return tt, w')
    ∧ messages w' = messages w ++ [u; a]
    ∧ role u = "user" ∧ role a = "assistant"
    ∧ List.filter is_query_event (trace w')
      = List.filter is_query_event (trace w) ++ [EvQuery prompt].
Proof.
  intros Hp. unfold chat_input_handler.
  destruct prompt as [|c r]; [done|]. cbn [PyStr.truthy].
  unfold bind at 1. unfold now_strftime at 1. cbn iota.
  unfold bind at 1. unfold messages_append at 1. cbn iota.
  unfold try_except, bind, call_query. cbn [vstore log_event].
  destruct (llm_query (String c r) (vstore w)) as [s [resp|e]]; cbn.
  - destruct (response_truthy resp); cbn;
      do 3 eexists; (split; [reflexivity|]); cbn;
      rewrite <- app_assoc, List.filter_app; done.
  - do 3 eexists. split; [reflexivity|]. cbn.
    rewrite <- app_assoc, List.filter_app. done.
Qed.

Lemma chat_input_handler_blank w :
  chat_input_handler None w = (Return tt, w)
  ∧ chat_input_handler (Some "") w = (Return tt, w).
Proof. done. Qed.

Lemma alternating_app (h1 h2 : list Message) :
  alternating h1 → alternating h2 → alternating (h1 ++ h2).
Proof.
  revert h1. fix IH 1. intros [|u [|a rest]]; simpl; [done|done|].
  intros (Hu & Ha & Hr) H2. repeat split; [done..|]. by apply IH.
Qed.

(** X17: over a whole session, whatever the query function does, the
    history only grows, by one user message and one assistant message per
    submitted non-empty prompt; a run without a prompt or with an empty
    one changes nothing; and a history made of user-assistant pairs stays
    one. *)
Theorem chat_session_history (inputs : list (option string)) w :
  ∃ added w',
    chat_session inputs w = (Return tt, w')
    ∧ messages w' = messages w ++ added
    ∧ List.length added = (2 * List.length (submitted inputs))%nat
    ∧ alternating added
    ∧ (alternating (messages w) → alternating (messages w'))
    ∧ (submitted inputs = [] → w' = w).
Proof.
  revert w. induction inputs as [|prompt rest IH]; intros w.
  - exists [], w. simpl. rewrite app_nil_r. done.
  - cbn [chat_session]. unfold bind at 1.
    assert (Hblank : chat_input_handler prompt w = (Return tt, w) →
                     submitted (prompt :: rest) = submitted rest →
                     ∃ added w',
                       (let (r, w1) := chat_input_handler prompt w in
                        match r with
                        | Return a => chat_session rest w1
                        | Raise e => (Raise e, w1)
                        end) = (Return tt, w')
                       ∧ messages w' = messages w ++ added
                       ∧ List.length added
                         = (2 * List.length (submitted (prompt :: rest)))%nat
                       ∧ alternating added
                       ∧ (alternating (messages w) → alternating (messages w'))
                       ∧ (submitted (prompt :: rest) = [] → w' = w)).
    { intros -> ->. apply IH. }
    destruct prompt as [[|c r]|]; [by apply Hblank| |by apply Hblank].
    clear Hblank.
    destruct (chat_input_handler_run (String c r) w)
      as (u & a & w1 & -> & Hm & Hu & Ha & _); [done|].
    destruct (IH w1) as (added & w' & -> & Hm' & Hlen & Halt & _ & _).
    exists (u :: a :: added), w'. split; [done|].
    split; [by rewrite Hm', Hm, <- app_assoc|].
    split; [cbn [submitted List.length]; lia|].
    split; [done|]. split; [|done].
    intros H. rewrite Hm', Hm, <- app_assoc.
    apply alternating_app; [done|]. done.
Qed.

(** X18: over a whole session the query function is called once for
    every submitted non-empty prompt, with that prompt, in the order of
    submission, and never for anything else. *)
Theorem chat_session_queries (inputs : list (option string)) w :
  List.filter is_query_event (trace (chat_session inputs w).2)
  = List.filter is_query_event (trace w) ++ map EvQuery (submitted inputs).
Proof.
  revert w. induction inputs as [|prompt rest IH]; intros w.
  - simpl. by rewrite app_nil_r.
  - cbn [chat_session]. unfold bind at 1.
    destruct prompt as [[|c r]|]; [apply IH| |apply IH].
    destruct (chat_input_handler_run (String c r) w)
      as (u & a & w1 & -> & _ & _ & _ & Hq); [done|].
    rewrite IH, Hq, <- app_assoc. done.
Qed.

End MoreChatTheorems.

(** * Further properties on concrete inputs *)


(** X3, on a hidden file named [.pdf]. *)
Lemma is_supported_file_needs_suffix_witness :
  suffix (of_str "/data/.pdf") = ""
  ∧ is_supported_file (DocumentEmbedder_init Demo.cfg) (of_str "/data/.pdf")
    = false.
Proof.
  apply (is_supported_file_needs_suffix Demo.cfg (of_str "/data/.pdf")).
  right. left. reflexivity.
Defined.

Example suffix_edge_cases :
  map (λ n, is_supported_file Demo.self (of_str n))
      [ "a.pdf"; "a.PDF"; "a.tar.pdf"; ".pdf"; "pdf"; "a.pdf."; "a.pdfx";
        "dir.pdf/readme" ]
  = [ true; true; true; false; false; false; false; false ].
Proof. by vm_compute. Qed.

(** X7, on the directory [/data]. *)
Lemma embed_documents_twice_witness :
  let w1 := (@embed_documents Demo.env Demo.self (Some "/data") Demo.w0).2 in
  let w2 := (@embed_documents Demo.env Demo.self (Some "/data") w1).2 in
  trace w2
  = trace Demo.w0
    ++ @ingestion_run Demo.env Demo.self (of_str "/data")
         (@configured_handle Demo.env Demo.w0)
    ++ @ingestion_run Demo.env Demo.self (of_str "/data")
         (@configured_handle Demo.env w1)
  ∧ handle_id (@configured_handle Demo.env w1)
    ≠ handle_id (@configured_handle Demo.env Demo.w0)
  ∧ In (EvAddDocuments (@configured_handle Demo.env Demo.w0)
          (@chunks_of Demo.env Demo.self (of_str "/data"))) (trace w2)
  ∧ In (EvAddDocuments (@configured_handle Demo.env w1)
          (@chunks_of Demo.env Demo.self (of_str "/data"))) (trace w2).
Proof.
  apply (@embed_documents_twice Demo.env Demo.self (Some "/data") Demo.w0);
    reflexivity.
Defined.

Example store_after_two_ingestions :
  List.length
    (vstore (@embed_documents Demo.env Demo.self (Some "/data")
               (@embed_documents Demo.env Demo.self (Some "/data") Demo.w0).2).2)
  = 6%nat.
Proof. by vm_compute. Qed.

(** X8, on the directory [/broken]: two files are counted, one document
    was made. *)
Lemma ingest_documents_files_processed_witness :
  IngestResponse.files_processed
    {| IngestResponse.message := "Documents ingested successfully";
       IngestResponse.files_processed := 2;
       IngestResponse.chunks_created := 0 |}
  = Z.of_nat (List.length (@kept_files Demo.env (@embedder Demo.env)
                             (of_str "/broken")))
  ∧ 1 ≤ Z.of_nat (List.length (@collected Demo.env (@embedder Demo.env)
                                 (of_str "/broken")))
      ≤ 2
  ∧ "Documents ingested successfully" = "Documents ingested successfully".
Proof.
  apply (@ingest_documents_files_processed Demo.env (Demo.ingest "/broken")
           Demo.w0
           {| IngestResponse.message := "Documents ingested successfully";
              IngestResponse.files_processed := 2;
              IngestResponse.chunks_created := 0 |}
           (@ingest_documents Demo.env (Demo.ingest "/broken") Demo.w0).2).
  reflexivity.
Defined.


Example query_is_not_stripped :
  trace (@query_documents Demo.env (Demo.ask "  hello ") Demo.w0).2
  = [EvQuery "  hello "].
Proof. by vm_compute. Qed.

(** X11, on a query function that raises a library error and on one
    that raises an [HTTPException]. *)
Lemma query_documents_raise_witness :
  (@query_documents Demo.env (Demo.ask "boom") Demo.w0).1
  = Raise (HTTPException 500 ("Query failed: " +:+ "connection refused"))
  ∧ (@query_documents DemoFail.env (Demo.ask "teapot") DemoFail.w0).1
    = Raise (HTTPException 418 "I'm a teapot").
Proof.
  split.
  - apply (@query_documents_raise Demo.env (Demo.ask "boom") Demo.w0
             Demo.empty_store (LibraryError "connection refused"));
      reflexivity.
  - apply (@query_documents_raise DemoFail.env (Demo.ask "teapot") DemoFail.w0
             DemoFail.empty_store (HTTPException 418 "I'm a teapot"));
      reflexivity.
Defined.

(** X12, with a store that can delete and with one that cannot. *)
Lemma delete_collection_witness :
  (@delete_collection Demo.env DemoFail.cannot_delete "documents" Demo.w0).1
  = Raise (HTTPException 500
             ("Failed to delete collection: "
              +:+ "501: Collection deletion not implemented"))
  ∧ (@delete_collection Demo.env DemoFail.can_delete "archive" Demo.w0).2
    = (@delete_collection Demo.env DemoFail.can_delete "documents" Demo.w0).2.
Proof.
  split.
  - destruct (@delete_collection_ignores_name Demo.env DemoFail.cannot_delete
                "documents" Demo.w0) as (_ & _ & _ & H).
    exact (H eq_refl Demo.empty_store tt eq_refl).
  - destruct (@delete_collection_ignores_name Demo.env DemoFail.can_delete
                "documents" Demo.w0) as (H & _).
    exact (proj1 (H "archive")).
Defined.

Example delete_other_collection_empties_the_default_one :
  let w1 := (@embed_documents Demo.env Demo.self (Some "/data") Demo.w0).2 in
  List.length (vstore w1) = 3%nat
  ∧ (@delete_collection Demo.env DemoFail.can_delete "archive" w1).1
    = Return [ ("message", JStr "Collection 'archive' deleted successfully") ]
  ∧ vstore (@delete_collection Demo.env DemoFail.can_delete "archive" w1).2
    = Demo.empty_store.
Proof. by vm_compute. Qed.

(** X13, on a path outside every user directory. *)
Lemma convert_path_without_prefix_witness :
  @convert_nextcloud_path_to_filesystem Demo.env (JStr "/etc/passwd") (JStr "admin")
  = Return "/etc/passwd"
  ∧ @convert_nextcloud_path_to_filesystem Demo.env (JStr "notes.txt") (JStr "admin")
    = Return "/nc/admin/files/notes.txt".
Proof.
  split.
  - apply (@convert_path_without_prefix Demo.env "admin" "/etc/passwd").
    reflexivity.
  - apply (@convert_path_without_prefix Demo.env "admin" "notes.txt").
    reflexivity.
Defined.

(** The webhook then loads that file: a created event for the path
    [/data/notes.txt], outside NEXTCLOUD_PATH, ingests it. *)
Example webhook_reaches_outside_nextcloud_path :
  (@nextcloud_webhook Demo.env
     (Demo.payload NodeCreatedEvent "/data/notes.txt" "admin") Demo.w0).1
  = Return (success_response "/data/notes.txt").
Proof. by vm_compute. Qed.

(** X15, on a payload whose event is not an object and on a written
    event. *)
Lemma nextcloud_webhook_other_events_witness :
  (∃ resp,
     @nextcloud_webhook Demo.env [ ("event", JStr "created") ] Demo.w0
     = (Return resp, Demo.w0)
     ∧ (resp = ignored_response
        ∨ ∃ m, resp = [ ("status", JStr "error"); ("message", JStr m) ]))
  ∧ (∃ resp,
       @nextcloud_webhook Demo.env
         (Demo.payload "OCP\Files\Events\Node\NodeWrittenEvent"
            "/admin/files/report.txt" "admin") Demo.w0
       = (Return resp, Demo.w0)
       ∧ (resp = ignored_response
          ∨ ∃ m, resp = [ ("status", JStr "error"); ("message", JStr m) ])).
Proof.
  split.
  - apply (@nextcloud_webhook_other_events Demo.env
             [ ("event", JStr "created") ] Demo.w0).
    discriminate.
  - apply (@nextcloud_webhook_other_events Demo.env
             (Demo.payload "OCP\Files\Events\Node\NodeWrittenEvent"
                "/admin/files/report.txt" "admin") Demo.w0).
    discriminate.
Defined.

(** X16, in the environment whose splitter raises. *)
Lemma handle_file_created_split_failure_witness :
  (@handle_file_created DemoFail.env "/nc/admin/files/report.txt" DemoFail.w0).1
  = Return (success_response "/nc/admin/files/report.txt")
  ∧ vstore (@handle_file_created DemoFail.env "/nc/admin/files/report.txt"
              DemoFail.w0).2
    = DemoFail.empty_store
  ∧ trace (@handle_file_created DemoFail.env "/nc/admin/files/report.txt"
             DemoFail.w0).2
    = trace DemoFail.w0
      ++ [ EvPartition "/nc/admin/files/report.txt";
           EvSplit (text_splitter (@embedder DemoFail.env))
             [ document_of (of_str "/nc/admin/files/report.txt")
                 ["Title"; "Body of /nc/admin/files/report.txt"] (Demo.st 40) ] ]
      ++ @accessor_events DemoFail.env
      ++ [EvAddDocuments (@configured_handle DemoFail.env DemoFail.w0) []].
Proof.
  apply (@handle_file_created_split_failure DemoFail.env
           "/nc/admin/files/report.txt" DemoFail.w0
           (document_of (of_str "/nc/admin/files/report.txt")
              ["Title"; "Body of /nc/admin/files/report.txt"] (Demo.st 40))
           (LibraryError "splitter failed")
           DemoFail.empty_store tt DemoFail.empty_store tt);
    reflexivity.
Defined.

(** The same failure through [embed_documents]: nothing reaches the
    store and the answer is false. *)
Example embed_documents_split_failure :
  @embed_documents DemoFail.env (@embedder DemoFail.env) (Some "/data") DemoFail.w0
  = (Return false,
     @add_events DemoFail.env
       (@ingest_events DemoFail.env (@embedder DemoFail.env) (of_str "/data"))
       DemoFail.w0).
Proof. by vm_compute. Qed.

Example chat_session_run :
  map (λ m, (role m, content m))
      (messages (@chat_session Demo.env
                   [Some "hello"; None; Some ""; Some "nothing"; Some "boom"]
                   Demo.w0).2)
  = [ ("user", "hello"); ("assistant", "Answer to: hello");
      ("user", "nothing"); ("assistant", not_found_msg);
      ("user", "boom");
      ("assistant", "Sorry, I encountered an error: connection refused") ].
Proof. by vm_compute. Qed.

Example data_directory_counts :
  match @get_file_stats Demo.env Demo.self (Some "/") with
  | Return (StatsOk s) =>
      map (λ k, file_types s !! k) [".txt"; ".pdf"; ".md"; ".exe"; ".PDF"]
      = [Some 2; Some 2; Some 1; None; None]
  | _ => False
  end.
Proof. by vm_compute. Qed.
